(** * optimal_studyplan: the greedy allocator and the replanner

    A shallow embedding of [allocate_by_priority] (src/first_study_plan.py)
    and of the replanning steps of [aggregate_tasks_from_plan] and [run]
    (src/done_task.py), with the properties their specification states.

    Modelling conventions.
    - Python [int] is [Z]. Python [float] has two models. In [Alloc],
      [Replan] and [Csv] it is the exact rationals [Q], with [Qfloor] for
      [int(floor(x))]: hours, per-item times and difficulties are the
      "reals" of the specification, and the properties stated there are
      about counts, order, control flow and structure. In [Floating] the
      allocator is embedded once more over an interface of the float
      operations it uses, with the exceptions [int(floor(x))] raises; the
      IEEE 754 doubles of the program ([binary64], Rocq's primitive floats)
      and the rationals ([exact]) are its instances. The property that
      compares recorded times with a capacity is stated there.
      [exact_allocate] shows that [Alloc] is [Floating] at the rationals.
    - A task is a Python dict mutated in place. The task list is a store
      (a [list Task]); a task's identity is its position in the list the
      caller passed. [sorted(tasks, ...)] builds a new list that aliases the
      same dicts, so it is modelled as a list of positions into the store.
      The allocator reads only the keys name, remaining, time_per_item,
      difficulty and priority; other keys (such as "total") are not modelled.
    - A Python dict used as an insertion-ordered map (the aggregation table)
      is an association list in insertion order.
    - [input()] replies are explicit arguments and [print]ed warnings are a
      returned log. *)

From Stdlib Require Import PrimFloat FloatOps SpecFloat.
From Stdlib Require Import ZArith QArith Qround Lia List Ascii.
From stdpp Require Import base list strings sorting.

Local Open Scope Z_scope.

(** A decimal float literal denotes the nearest double, as in Python. *)
Set Warnings "-inexact-float".

(** ** Numbers *)

(** [x > 0] and [x <= 0] on floats. *)
Definition Qpositive (x : Q) : bool := negb (Qle_bool x 0).

(** ** Data model *)

Module Alloc.

(** A task dict: [{"name", "remaining", "time_per_item", "difficulty",
    "priority"}]. *)
Record Task := mkTask {
  name : string;
  remaining : Z;
  time_per_item : Q;
  difficulty : Q;
  priority : Z
}.

(** An entry of [plan[day]]: [{"name", "assigned", "time"}]. *)
Record Assignment := mkAssignment {
  a_name : string;
  a_assigned : Z;
  a_time : Q
}.

Definition set_remaining (t : Task) (r : Z) : Task :=
  mkTask (name t) r (time_per_item t) (difficulty t) (priority t).

(** [time_per = t["time_per_item"] * t["difficulty"]] *)
Definition time_per (t : Task) : Q := (time_per_item t * difficulty t)%Q.

(** ** [sorted(tasks, key=lambda x: x["priority"])]

    Python's [sorted] is a stable sort. The result is a list of references
    to the task dicts, here positions in the store, obtained by a stable
    insertion sort of [0, 1, ..., len(tasks)-1] on the priority key. *)

Definition key_of (tasks : list Task) (i : nat) : Z :=
  from_option priority 0 (tasks !! i).

Fixpoint insert_by (key : nat -> Z) (x : nat) (l : list nat) : list nat :=
  match l with
  | [] => [x]
  | y :: l' => if key x <=? key y then x :: y :: l' else y :: insert_by key x l'
  end.

Fixpoint sort_by (key : nat -> Z) (l : list nat) : list nat :=
  match l with
  | [] => []
  | x :: l' => insert_by key x (sort_by key l')
  end.

Definition tasks_sorted (tasks : list Task) : list nat :=
  sort_by (key_of tasks) (seq 0 (length tasks)).

(** ** The body of the two loops *)

(** The variables live during one day's pass: [remaining_time],
    [any_assigned], the task dicts, and [plan[day]]. *)
Record DayState := mkDay {
  remaining_time : Q;
  any_assigned : bool;
  store : list Task;
  day_plan : list Assignment
}.

(** One iteration of [for t in tasks_sorted:] (lines 105-129); [i] is the
    position of [t] in the store. Each [continue] returns the state as it
    is. *)
Definition task_step (s : DayState) (i : nat) : DayState :=
  match store s !! i with
  | None => s
  | Some t =>
    if remaining t <=? 0 then s else
    let tp := time_per t in
    if Qle_bool tp 0 then s else
    let max_items :=
      if Qpositive (remaining_time s)
      then Qfloor (remaining_time s / tp) else 0 in
    let decision :=
      if 0 <? max_items then Some (Z.min max_items (remaining t))
      else if Qpositive (remaining_time s) && (0 <? remaining t)
                && negb (any_assigned s)
           then Some 1
           else None in
    match decision with
    | None => s
    | Some assign =>
      let store' := <[i := set_remaining t (remaining t - assign)]> (store s) in
      let rt' := (remaining_time s - inject_Z assign * tp)%Q in
      if 0 <? assign
      then mkDay rt' true store'
             (day_plan s ++ [mkAssignment (name t) assign (inject_Z assign * tp)%Q])
      else mkDay rt' (any_assigned s) store' (day_plan s)
    end
  end.

(** The body of [for day in range(days):] (lines 102-129) for one day of
    capacity [cap], over the sorted order [order]. *)
Definition day_pass (order : list nat) (cap : Q) (st : list Task) : DayState :=
  fold_left task_step order (mkDay cap false st []).

(** The outer loop: returns the plan (one list per day) and the task dicts
    as the call leaves them. *)
Fixpoint days_loop (order : list nat) (caps : list Q) (st : list Task)
  : list (list Assignment) * list Task :=
  match caps with
  | [] => ([], st)
  | cap :: caps' =>
    let s := day_pass order cap st in
    let '(plan, st') := days_loop order caps' (store s) in
    (day_plan s :: plan, st')
  end.

(** The objects a call touches: the capacity list and the task dicts. *)
Record Heap := mkHeap {
  h_capacities : list Q;
  h_tasks : list Task
}.

(** [allocate_by_priority(day_capacities, tasks)]: the returned plan and
    the heap after the call. The capacity list is only read. *)
Definition allocate_by_priority (h : Heap) : list (list Assignment) * Heap :=
  let '(plan, st') :=
    days_loop (tasks_sorted (h_tasks h)) (h_capacities h) (h_tasks h) in
  (plan, mkHeap (h_capacities h) st').

Definition plan_of (caps : list Q) (tasks : list Task) : list (list Assignment) :=
  fst (allocate_by_priority (mkHeap caps tasks)).

Definition tasks_after (caps : list Q) (tasks : list Task) : list Task :=
  h_tasks (snd (allocate_by_priority (mkHeap caps tasks))).

(** ** Quantities of the specification *)

(** Sum of the assigned counts recorded under name [nm] in a day's list. *)
Fixpoint assigned_to (nm : string) (recs : list Assignment) : Z :=
  match recs with
  | [] => 0
  | a :: recs' =>
    (if String.eqb (a_name a) nm then a_assigned a else 0) + assigned_to nm recs'
  end.

(** The same over all days of a plan. *)
Definition total_assigned_to (nm : string) (plan : list (list Assignment)) : Z :=
  assigned_to nm (concat plan).

(** A task the inner loop does not [continue] past at its first two tests. *)
Definition eligible (t : Task) : Prop :=
  0 < remaining t /\ (0 < time_per t)%Q.

Definition eligibleb (t : Task) : bool :=
  (0 <? remaining t) && Qpositive (time_per t).

(** ** Notions used to state and prove the properties *)

(** The state after lines 121-129 ran for the task [t] at position [i]
    with [assign = a > 0]. *)
Definition commit (s : DayState) (i : nat) (t : Task) (a : Z) : DayState :=
  mkDay (remaining_time s - inject_Z a * time_per t)%Q true
        (<[i := set_remaining t (remaining t - a)]> (store s))
        (day_plan s ++ [mkAssignment (name t) a (inject_Z a * time_per t)%Q]).

(** How [a] was chosen: by the floor of the leftover time, or forced. *)
Definition fits (s : DayState) (t : Task) (a : Z) : Prop :=
  (0 < remaining_time s)%Q /\
  0 < Qfloor (remaining_time s / time_per t) /\
  a = Z.min (Qfloor (remaining_time s / time_per t)) (remaining t).

Definition forced (s : DayState) (t : Task) (a : Z) : Prop :=
  a = 1 /\ (0 < remaining_time s)%Q /\ any_assigned s = false /\
  Qfloor (remaining_time s / time_per t) <= 0.

(** Two task dicts that differ at most in ["remaining"]. *)
Definition frame_eq (t t' : Task) : Prop :=
  name t = name t' /\ time_per_item t = time_per_item t' /\
  difficulty t = difficulty t' /\ priority t = priority t'.

Definition same_frame (st st' : list Task) : Prop := Forall2 frame_eq st st'.

(** What a task's count and the day's records under its name satisfy
    between two points of the run. *)
Definition conserves (nm : string) (r0 : Z) (p0 : list Assignment)
    (r1 : Z) (p1 : list Assignment) : Prop :=
  r1 + assigned_to nm p1 = r0 + assigned_to nm p0 /\
  r1 <= r0 /\ (0 <= r0 -> 0 <= r1).

(** The record [a] was appended for a task of the store [st]: it bears the
    task's name, the task has a positive per-item cost, the count is
    positive and the time is count times cost. *)
Definition from_task (st : list Task) (a : Assignment) : Prop :=
  exists i t, st !! i = Some t /\ a_name a = name t /\ (0 < time_per t)%Q /\
    1 <= a_assigned a /\ a_time a = (inject_Z (a_assigned a) * time_per t)%Q.

(** [i] comes before [j] in a stable ascending sort on [key] of positions
    listed in increasing order: smaller key first, equal keys in the
    original order. *)
Definition precedes (key : nat -> Z) (i j : nat) : Prop :=
  key i < key j \/ (key i = key j /\ (i < j)%nat).

(** The task dicts as they are when day [d]'s pass starts: the state the
    passes of the days before [d] leave. *)
Definition tasks_at_day (caps : list Q) (tasks : list Task) (d : nat) : list Task :=
  snd (days_loop (tasks_sorted tasks) (take d caps) tasks).

(** The record [a] bears the name of the task at position [i]. *)
Definition recorded_for (st : list Task) (a : Assignment) (i : nat) : Prop :=
  exists t, st !! i = Some t /\ a_name a = name t.


(** [t'] is the dict [t] at a later point of a call: [remaining] is as it
    was, or smaller but not negative; the other keys are as they were. *)
Definition later_of (t t' : Task) : Prop :=
  frame_eq t t' /\ (remaining t' = remaining t \/ 0 <= remaining t' < remaining t).

Definition later_store (st st' : list Task) : Prop := Forall2 later_of st st'.

(** The record [a] names a task of the store [st] that has a positive
    per-item cost; its count is at least 1 and at most that task's
    [remaining] in [st]; its time is count times cost. *)
Definition from_input (st : list Task) (a : Assignment) : Prop :=
  exists i t, st !! i = Some t /\ a_name a = name t /\ (0 < time_per t)%Q /\
    1 <= a_assigned a <= remaining t /\
    a_time a = (inject_Z (a_assigned a) * time_per t)%Q.

End Alloc.

Import Alloc.

(** * The replanner (src/done_task.py) *)

Module Replan.

(** The name of a row that stands for a day without work. *)
Definition idle_sentinel : string := "(休憩/学習無し)".

(** A row of [plan_rows]: [{"day", "name", "assigned", "time"}]. *)
Record PlanRow := mkRow {
  r_day : Z;
  r_name : string;
  r_assigned : Z;
  r_time : Q
}.

(** A value of the aggregation table. The key ["time_per_item"] is added
    by the second loop of [aggregate_tasks_from_plan]; before that it is
    absent ([None]). *)
Record TaskInfo := mkInfo {
  total_assigned : Z;
  time_per_item_samples : list Q;
  first_day : Z;
  info_time_per_item : option Q
}.

(** A Python dict with string keys, in insertion order. *)
Abbreviation dict V := (list (string * V)) (only parsing).

Fixpoint dict_get {V : Type} (k : string) (d : dict V) : option V :=
  match d with
  | [] => None
  | (k', v) :: d' => if String.eqb k' k then Some v else dict_get k d'
  end.

(** [d[k] = v]: replaces the value of an existing key in place, or appends
    a new key. *)
Fixpoint dict_set {V : Type} (k : string) (v : V) (d : dict V) : dict V :=
  match d with
  | [] => [(k, v)]
  | (k', v') :: d' =>
    if String.eqb k' k then (k', v) :: d' else (k', v') :: dict_set k v d'
  end.

(** [sum(...)] over integers and over floats. *)
Fixpoint sumZ (l : list Z) : Z :=
  match l with
  | [] => 0
  | x :: l' => x + sumZ l'
  end.

Definition sumQ (l : list Q) : Q := fold_left Qplus l 0%Q.

(** One iteration of [for r in plan_rows:] (lines 113-125). *)
Definition aggregate_row (tasks : dict TaskInfo) (r : PlanRow) : dict TaskInfo :=
  let name := r_name r in
  if String.eqb name idle_sentinel then tasks else
  let assigned := r_assigned r in
  let time_h := r_time r in
  let info :=
    match dict_get name tasks with
    | Some info => info
    | None => mkInfo 0 [] (r_day r) None
    end in
  let total := total_assigned info + assigned in
  let samples :=
    if 0 <? assigned
    then time_per_item_samples info ++ [(time_h / inject_Z assigned)%Q]
    else time_per_item_samples info in
  dict_set name
    (mkInfo total samples (Z.min (first_day info) (r_day r)) (info_time_per_item info))
    tasks.

(** [(sum(samples) / len(samples)) if samples else 1.0] *)
Definition estimate (samples : list Q) : Q :=
  match samples with
  | [] => 1%Q
  | _ :: _ => (sumQ samples / inject_Z (Z.of_nat (length samples)))%Q
  end.

(** The second loop (lines 128-131). *)
Definition set_estimate (info : TaskInfo) : TaskInfo :=
  mkInfo (total_assigned info) (time_per_item_samples info) (first_day info)
         (Some (estimate (time_per_item_samples info))).

Definition aggregate_tasks_from_plan (plan_rows : list PlanRow) : dict TaskInfo :=
  prod_map id set_estimate <$> fold_left aggregate_row plan_rows [].

(** [sum(r["assigned"] for r in plan_rows if cond(r))] *)
Definition sum_assigned (cond : PlanRow -> bool) (plan_rows : list PlanRow) : Z :=
  sumZ (r_assigned <$> List.filter cond plan_rows).

Definition prev_of (plan_rows : list PlanRow) (name : string) (today : Z) : Z :=
  sum_assigned (fun r => String.eqb (r_name r) name && (r_day r <? today)) plan_rows.

Definition today_assigned_of (plan_rows : list PlanRow) (name : string) (today : Z) : Z :=
  sum_assigned (fun r => String.eqb (r_name r) name && (r_day r =? today)) plan_rows.

(** The reply to "which day is today" (lines 191-197): an empty line
    ([None]) means 1, and a day below 1 becomes 1. *)
Definition read_today (reply : option Z) : Z :=
  let today := match reply with None => 1 | Some z => z end in
  if today <? 1 then 1 else today.

(** A stripped input line: empty, an integer literal, or anything else. *)
Inductive Reply :=
  | Blank
  | Number (z : Z)
  | Garbage.

(** The lines [run] prints while reading the completed counts. *)
Inductive Message :=
  | Msg_not_integer
  | Msg_clamped (done max_possible : Z).

(** A value of [completed_by_task]: [{"done_today", "prev_done"}]. *)
Record Completed := mkCompleted {
  done_today : Z;
  prev_done : Z
}.

(** Lines 207-225 for one task: the accepted count and what is printed. *)
Definition accept_done (total_assigned prev today_assigned : Z) (reply : Reply)
  : Z * list Message :=
  let suggested := Z.min (total_assigned - prev) today_assigned in
  let suggested := if suggested <? 0 then 0 else suggested in
  let '(done, log) :=
    match reply with
    | Blank => (suggested, [])
    | Number z => (z, [])
    | Garbage => (0, [Msg_not_integer])
    end in
  let max_possible := Z.max 0 (total_assigned - prev) in
  let done := if done <? 0 then 0 else done in
  if max_possible <? done
  then (max_possible, log ++ [Msg_clamped done max_possible])
  else (done, log).

(** One iteration of the loop of lines 201-226; [reply] is the line read
    for this task. *)
Definition complete_task (plan_rows : list PlanRow) (today : Z)
    (reply : Reply) (entry : string * TaskInfo) : (string * Completed) * list Message :=
  let '(name, info) := entry in
  let prev := prev_of plan_rows name today in
  let today_assigned := today_assigned_of plan_rows name today in
  let '(done, log) := accept_done (total_assigned info) prev today_assigned reply in
  ((name, mkCompleted done prev), log).

(** The loop of lines 201-226: [replies k] is the line read at the [k]-th
    prompt. The keys of [tasks_info] are distinct, so each iteration adds
    a new key to [completed_by_task]. *)
Definition completion_loop (plan_rows : list PlanRow) (today : Z)
    (replies : nat -> Reply) (tasks_info : dict TaskInfo)
  : dict Completed * list Message :=
  let results := imap (fun k entry => complete_task plan_rows today (replies k) entry)
                      tasks_info in
  (fst <$> results, concat (snd <$> results)).

(** One iteration of the loop of lines 230-247. *)
Definition derive_task (plan_rows : list PlanRow) (today : Z)
    (completed_by_task : dict Completed) (entry : string * TaskInfo) : Task :=
  let '(name, info) := entry in
  let prev := prev_of plan_rows name today in
  let done_today := from_option done_today 0 (dict_get name completed_by_task) in
  let remaining := total_assigned info - prev - done_today in
  let remaining := if remaining <? 0 then 0 else remaining in
  let time_per_item := default 1%Q (info_time_per_item info) in
  let priority := first_day info in
  mkTask name remaining time_per_item 1%Q priority.

(** Lines 250-259: the capacities after day [today], or the list the user
    types when the file has none left. *)
Definition next_day_caps (day_capacities : list Q) (today : Z) (typed : list Q) : list Q :=
  if today <? Z.of_nat (length day_capacities)
  then drop (Z.to_nat today) day_capacities
  else typed.

(** What [run] computes between loading the file and printing the new
    plan (lines 187-275). [day_capacities] is the list as line 187 finds
    it (read from the file, or typed at lines 179-185 when the file has
    none); [today_reply] is the parsed reply to the prompt of line 191.
    [tasks_for_alloc] is a copy of [remaining_tasks] dict by dict, so the
    allocator's mutation does not reach [remaining_tasks]. *)
Record Replanned := mkReplanned {
  remaining_tasks : list Task;
  next_caps : list Q;
  new_plan : list (list Assignment);
  printed : list Message
}.

Definition run (plan_rows : list PlanRow) (day_capacities : list Q)
    (today_reply : option Z) (replies : nat -> Reply) (typed : list Q) : Replanned :=
  let tasks_info := aggregate_tasks_from_plan plan_rows in
  let today := read_today today_reply in
  let '(completed_by_task, log) := completion_loop plan_rows today replies tasks_info in
  let remaining_tasks := derive_task plan_rows today completed_by_task <$> tasks_info in
  let caps := next_day_caps day_capacities today typed in
  let tasks_for_alloc := remaining_tasks in
  let plan := fst (allocate_by_priority (mkHeap caps tasks_for_alloc)) in
  mkReplanned remaining_tasks caps plan log.

(** ** Notions used to state and prove the properties *)

(** The rows of the task named [nm]. *)
Definition rows_of (nm : string) (rows : list PlanRow) : list PlanRow :=
  List.filter (fun r => String.eqb (r_name r) nm) rows.

(** [time / assigned] over the rows with [assigned > 0]. *)
Definition samples_of (rows : list PlanRow) : list Q :=
  (fun r => (r_time r / inject_Z (r_assigned r))%Q)
    <$> List.filter (fun r => 0 <? r_assigned r) rows.

(** The smallest day among the row [r0] and the rows [rest]. *)
Definition min_day (r0 : PlanRow) (rest : list PlanRow) : Z :=
  fold_left Z.min (r_day <$> rest) (r_day r0).

(** The table entry of [nm] after the first loop has read [rows]. *)
Definition collected (nm : string) (rows : list PlanRow) : option TaskInfo :=
  if String.eqb nm idle_sentinel then None else
  match rows_of nm rows with
  | [] => None
  | r0 :: rest =>
    Some (mkInfo (sumZ (r_assigned <$> r0 :: rest)) (samples_of (r0 :: rest))
                 (min_day r0 rest) None)
  end.

(** [future] of line 206: the items scheduled after [today]. [run]
    computes it for each task and does not use it. *)
Definition future_of (plan_rows : list PlanRow) (name : string) (today : Z) : Z :=
  sum_assigned (fun r => String.eqb (r_name r) name && (today <? r_day r)) plan_rows.

End Replan.

Import Replan.

(** * Saving and loading a plan (the CSV layout)

    The file is modelled as [csv.reader] returns it and as [csv.writer]
    receives it: a list of rows, each a list of cells; a blank line is the
    empty row. The Python library calls on cells are the methods of
    [PyText]. *)

Module Csv.

Class PyText := {
  (** [s.strip()] *)
  py_strip : string -> string;
  (** [int(s)]; [None] when it raises [ValueError] *)
  py_int : string -> option Z;
  (** [float(s)]; [None] when it raises [ValueError] *)
  py_float : string -> option Q;
  (** [str(i)], as [csv.writer] writes an integer cell *)
  py_str : Z -> string;
  (** [f"{x:.2f}"] *)
  py_fmt2 : Q -> string
}.

(** What [load_plan_csv] returns: [{"meta", "day_capacities", "plan_rows"}]. *)
Record Loaded := mkLoaded {
  l_meta : list (string * string);
  l_day_capacities : list Q;
  l_plan_rows : list PlanRow
}.

(** A call returns, or raises the [IndexError] of [name = r[1]] (line 92),
    the one exception of [load_plan_csv] that no [except] catches. *)
Inductive Outcome (A : Type) :=
  | Returned (a : A)
  | Raised_IndexError.

Arguments Returned {A} a.
Arguments Raised_IndexError {A}.

(** [not rows[i]] *)
Definition is_blank (r : list string) : bool :=
  match r with
  | [] => true
  | _ :: _ => false
  end.

(** [while i < len(rows) and rows[i]: ...; i += 1]: the rows the loop
    visits, and the rows from the index it stops at. *)
Fixpoint block (rows : list (list string)) : list (list string) * list (list string) :=
  match rows with
  | [] => ([], [])
  | r :: rest =>
    if is_blank r then ([], rows)
    else let '(b, rest') := block rest in (r :: b, rest')
  end.

(** [while i < len(rows) and not rows[i]: i += 1] *)
Fixpoint skip_blank (rows : list (list string)) : list (list string) :=
  match rows with
  | [] => []
  | r :: rest => if is_blank r then skip_blank rest else rows
  end.

(** Lines 50-54: [if len(r) >= 2: meta[r[0]] = r[1]]. *)
Definition read_meta (b : list (list string)) : list (string * string) :=
  fold_left
    (fun meta r =>
       match r with
       | k :: v :: _ => dict_set k v meta
       | _ => meta
       end)
    b [].

(** [i < len(rows) and rows[i] and rows[i][0].strip() == title] *)
Definition has_header `{PyText} (title : string) (rows : list (list string)) : bool :=
  match rows with
  | (c :: _) :: _ => String.eqb (py_strip c) title
  | _ => false
  end.

(** Lines 66-72: [float(r[1])] is appended; a row where it raises (a
    missing cell or an unparsable one) is passed over. *)
Definition read_capacities `{PyText} (b : list (list string)) : list Q :=
  omap (fun r => r !! 1%nat ≫= py_float) b.

(** Lines 93-97: [int(r[2]) if r[2] != '' else 0], and 0 when that raises. *)
Definition read_assigned `{PyText} (r : list string) : Z :=
  match r !! 2%nat with
  | Some c => if String.eqb c "" then 0 else default 0 (py_int c)
  | None => 0
  end.

(** Lines 98-102: [float(r[3]) if r[3] != '' else 0.0], and 0.0 when that
    raises. *)
Definition read_time `{PyText} (r : list string) : Q :=
  match r !! 3%nat with
  | Some c => if String.eqb c "" then 0%Q else default 0%Q (py_float c)
  | None => 0%Q
  end.

(** Lines 84-105: the loop over the rows of the Plan section. *)
Fixpoint read_plan_rows `{PyText} (b : list (list string)) : Outcome (list PlanRow) :=
  match b with
  | [] => Returned []
  | r :: b' =>
    match r !! 0%nat ≫= py_int with
    | None => read_plan_rows b'
    | Some day =>
      match r !! 1%nat with
      | None => Raised_IndexError
      | Some name =>
        match read_plan_rows b' with
        | Returned plan_rows =>
          Returned (mkRow day name (read_assigned r) (read_time r) :: plan_rows)
        | Raised_IndexError => Raised_IndexError
        end
      end
    end
  end.

(** The rows of the Plan section of a file, when it has one where
    [load_plan_csv] looks for it. *)
Definition plan_block `{PyText} (rows : list (list string)) : list (list string) :=
  let rest := skip_blank (snd (block rows)) in
  let rest :=
    if has_header "Day Capacities" rest then snd (block (drop 2 rest)) else rest in
  let rest := skip_blank rest in
  if has_header "Plan" rest then fst (block (drop 2 rest)) else [].

(** [load_plan_csv(path)] (lines 41-107) on the rows [csv.reader] yields. *)
Definition load_plan_csv `{PyText} (rows : list (list string)) : Outcome Loaded :=
  let '(meta_rows, rest) := block rows in
  let meta := read_meta meta_rows in
  let rest := skip_blank rest in
  let '(day_capacities, rest) :=
    if has_header "Day Capacities" rest
    then let '(b, rest') := block (drop 2 rest) in (read_capacities b, rest')
    else ([], rest) in
  let rest := skip_blank rest in
  if has_header "Plan" rest
  then
    let '(b, _) := block (drop 2 rest) in
    match read_plan_rows b with
    | Returned plan_rows => Returned (mkLoaded meta day_capacities plan_rows)
    | Raised_IndexError => Raised_IndexError
    end
  else Returned (mkLoaded meta day_capacities []).

(** [for i, h in enumerate(day_capacities, start=1): writer.writerow([i,
    f"{h:.2f}"])], from day number [i]. *)
Fixpoint capacity_rows `{PyText} (i : Z) (day_capacities : list Q) : list (list string) :=
  match day_capacities with
  | [] => []
  | h :: rest => [py_str i; py_fmt2 h] :: capacity_rows (i + 1) rest
  end.

(** The rows written for day [i] (lines 221-225). *)
Definition day_rows `{PyText} (i : Z) (day_tasks : list Assignment) : list (list string) :=
  match day_tasks with
  | [] => [[py_str i; idle_sentinel; ""; ""]]
  | _ :: _ =>
    (fun it => [py_str i; a_name it; py_str (a_assigned it); py_fmt2 (a_time it)])
      <$> day_tasks
  end.

(** [for i, day_tasks in enumerate(plan, start=1): ...], from day number [i]. *)
Fixpoint plan_section_rows `{PyText} (i : Z) (plan : list (list Assignment))
  : list (list string) :=
  match plan with
  | [] => []
  | day_tasks :: rest => day_rows i day_tasks ++ plan_section_rows (i + 1) rest
  end.

Definition optional_row (key : string) (value : option string) : list (list string) :=
  match value with
  | Some v => [[key; v]]
  | None => []
  end.

(** [_export_plan_csv(path, subject, day_capacities, tasks, total_needed,
    plan)] (lines 188-226): the rows passed to [writer.writerow], in
    order. [now] is [datetime.now().isoformat()]; [start_date] and
    [test_date] are [START_DATE_PRESET] and [TEST_DATE_PRESET]. [tasks] is
    not used by the function. *)
Definition _export_plan_csv `{PyText} (now : string) (start_date test_date : option string)
    (subject : string) (day_capacities : list Q) (total_needed : Q)
    (plan : list (list Assignment)) : list (list string) :=
  [["subject"; subject];
   ["generated_at"; now];
   ["total_available"; py_fmt2 (sumQ day_capacities)];
   ["total_needed"; py_fmt2 total_needed]]
  ++ optional_row "start_date" start_date
  ++ optional_row "test_date" test_date
  ++ [[]]
  ++ [["Day Capacities"]; ["Day"; "AvailableHours"]]
  ++ capacity_rows 1 day_capacities
  ++ [[]]
  ++ [["Plan"]; ["Day"; "Task"; "Assigned"; "Time(hours)"]]
  ++ plan_section_rows 1 plan
  ++ [[]].

(** The plan rows a saved plan is read back as: one row per record with
    its 1-based day, the time as it reads back after two-decimal
    formatting ([round2]), and one idle row for a day without records. *)
Definition day_plan_rows (round2 : Q -> Q) (i : Z) (day_tasks : list Assignment)
  : list PlanRow :=
  match day_tasks with
  | [] => [mkRow i idle_sentinel 0 0%Q]
  | _ :: _ =>
    (fun it => mkRow i (a_name it) (a_assigned it) (round2 (a_time it))) <$> day_tasks
  end.

Fixpoint plan_rows_of (round2 : Q -> Q) (i : Z) (plan : list (list Assignment))
  : list PlanRow :=
  match plan with
  | [] => []
  | day_tasks :: rest => day_plan_rows round2 i day_tasks ++ plan_rows_of round2 (i + 1) rest
  end.

(** What is assumed of the Python library for a saved file to read back:
    [int(str(i)) == i], [str(i)] and [f"{x:.2f}"] are not empty,
    [float(f"{x:.2f}")] is [round2 x], and [strip] leaves the two section
    titles as they are. *)
Record PyLaws `{PyText} (round2 : Q -> Q) : Prop := {
  int_str : forall z, py_int (py_str z) = Some z;
  str_nonempty : forall z, py_str z <> "";
  float_fmt2 : forall q, py_float (py_fmt2 q) = Some (round2 q);
  fmt2_nonempty : forall q, py_fmt2 q <> "";
  strip_capacities : py_strip "Day Capacities" = "Day Capacities";
  strip_plan : py_strip "Plan" = "Plan"
}.

(** An instance for checking that the assumptions can be met: integers in
    unary with a sign, every float written as "0.00". *)
Fixpoint ones (n : nat) : string :=
  match n with
  | O => ""
  | S n' => String "1"%char (ones n')
  end.

Definition unary_text : PyText := {|
  py_strip := fun s => s;
  py_int := fun s =>
    match s with
    | EmptyString => None
    | String c rest =>
      if Ascii.eqb c "-"%char then Some (- Z.of_nat (String.length rest))
      else Some (Z.of_nat (String.length rest))
    end;
  py_float := fun _ => Some 0%Q;
  py_str := fun z => String (if z <? 0 then "-"%char else "+"%char) (ones (Z.abs_nat z));
  py_fmt2 := fun _ => "0.00"
|}.

End Csv.

Import Csv.

(** * The allocator in the program's own arithmetic (src/first_study_plan.py)

    [allocate_by_priority] once more, line by line, over an interface of
    the float operations it uses, and with the exceptions of
    [int(floor(x))]. The interface has two instances: [binary64], the IEEE
    754 doubles of the Python program, and [exact], the rationals used in
    [Alloc]. *)

Module Floating.

(** What [int(floor(x))] raises: [OverflowError] on an infinity,
    [ValueError] on a NaN. *)
Inductive PyError := OverflowError | ValueError.

(** The outcome of code that can raise. Of a call that raises only the
    exception is kept, not the dicts it changed before. *)
Inductive Result (A : Type) :=
| Ok (a : A)
| Raise (e : PyError).

Arguments Ok {A} a.
Arguments Raise {A} e.

Definition bind {A B : Type} (r : Result A) (f : A -> Result B) : Result B :=
  match r with
  | Ok a => f a
  | Raise e => Raise e
  end.

(** The operations on floats in lines 105-129: [x * y], [x / y], [x - y],
    [x > 0], [x <= 0], [int(floor(x))], and the conversion of the [int]
    operand of [assign * time_per]. The code divides only by a [time_per]
    for which [time_per <= 0] is false, so it never divides by zero. *)
Class PyFloat := {
  num : Type;
  fmul : num -> num -> num;
  fdiv : num -> num -> num;
  fsub : num -> num -> num;
  fpositive : num -> bool;
  fnonpositive : num -> bool;
  floor_int : num -> Result Z;
  of_int : Z -> num
}.

Section Allocator.

Context `{PyFloat}.

Record Task := mkTask {
  name : string;
  remaining : Z;
  time_per_item : num;
  difficulty : num;
  priority : Z
}.

Record Assignment := mkAssignment {
  a_name : string;
  a_assigned : Z;
  a_time : num
}.

Definition set_remaining (t : Task) (r : Z) : Task :=
  mkTask (name t) r (time_per_item t) (difficulty t) (priority t).

(** [time_per = t["time_per_item"] * t["difficulty"]] *)
Definition time_per (t : Task) : num := fmul (time_per_item t) (difficulty t).

Definition key_of (tasks : list Task) (i : nat) : Z :=
  from_option priority 0 (tasks !! i).

(** [sorted(tasks, key=lambda x: x["priority"])], as positions in the store. *)
Definition tasks_sorted (tasks : list Task) : list nat :=
  Alloc.sort_by (key_of tasks) (seq 0 (length tasks)).

Record DayState := mkDay {
  remaining_time : num;
  any_assigned : bool;
  store : list Task;
  day_plan : list Assignment
}.

(** One iteration of [for t in tasks_sorted:] (lines 105-129). *)
Definition task_step (s : DayState) (i : nat) : Result DayState :=
  match store s !! i with
  | None => Ok s
  | Some t =>
    if remaining t <=? 0 then Ok s else
    let tp := time_per t in
    if fnonpositive tp then Ok s else
    bind (if fpositive (remaining_time s)
          then floor_int (fdiv (remaining_time s) tp) else Ok 0)
      (fun max_items =>
         let decision :=
           if 0 <? max_items then Some (Z.min max_items (remaining t))
           else if fpositive (remaining_time s) && (0 <? remaining t)
                     && negb (any_assigned s)
                then Some 1
                else None in
         match decision with
         | None => Ok s
         | Some assign =>
           let store' := <[i := set_remaining t (remaining t - assign)]> (store s) in
           let rt' := fsub (remaining_time s) (fmul (of_int assign) tp) in
           if 0 <? assign
           then Ok (mkDay rt' true store'
                      (day_plan s
                         ++ [mkAssignment (name t) assign (fmul (of_int assign) tp)]))
           else Ok (mkDay rt' (any_assigned s) store' (day_plan s))
         end)
  end.

(** The body of [for day in range(days):] for one day of capacity [cap]. *)
Definition day_pass (order : list nat) (cap : num) (st : list Task) : Result DayState :=
  fold_left (fun r i => bind r (fun s => task_step s i)) order
            (Ok (mkDay cap false st [])).

Fixpoint days_loop (order : list nat) (caps : list num) (st : list Task)
  : Result (list (list Assignment) * list Task) :=
  match caps with
  | [] => Ok ([], st)
  | cap :: caps' =>
    bind (day_pass order cap st) (fun s =>
    bind (days_loop order caps' (store s)) (fun r =>
    Ok (day_plan s :: fst r, snd r)))
  end.

(** [allocate_by_priority(day_capacities, tasks)]: the returned plan and
    the task dicts after the call, or the exception raised. *)
Definition allocate_by_priority (day_capacities : list num) (tasks : list Task)
  : Result (list (list Assignment) * list Task) :=
  days_loop (tasks_sorted tasks) day_capacities tasks.

(** ** Notions used to state and prove the properties *)

(** The state after lines 121-129 ran for the task [t] at position [i]
    with [assign = a > 0]. *)
Definition commit (s : DayState) (i : nat) (t : Task) (a : Z) : DayState :=
  mkDay (fsub (remaining_time s) (fmul (of_int a) (time_per t))) true
        (<[i := set_remaining t (remaining t - a)]> (store s))
        (day_plan s ++ [mkAssignment (name t) a (fmul (of_int a) (time_per t))]).


(** The record [a] was made for a task of [tasks] when [L] was left, by
    the rule of line 112: [max_items = int(floor(L / time_per))] is
    positive and the count is at most [max_items]. *)
Definition fits (tasks : list Task) (L : num) (a : Assignment) : Prop :=
  exists i t max_items,
    tasks !! i = Some t /\ a_name a = name t /\
    fnonpositive (time_per t) = false /\
    a_time a = fmul (of_int (a_assigned a)) (time_per t) /\
    floor_int (fdiv L (time_per t)) = Ok max_items /\
    1 <= a_assigned a <= max_items.

(** The record [a] was made for a task of [tasks] when [L] was left, by
    the rule of line 118: not even one item fits and one is assigned. *)
Definition forced (tasks : list Task) (L : num) (a : Assignment) : Prop :=
  exists i t max_items,
    tasks !! i = Some t /\ a_name a = name t /\
    fnonpositive (time_per t) = false /\
    a_assigned a = 1 /\ a_time a = fmul (of_int 1) (time_per t) /\
    floor_int (fdiv L (time_per t)) = Ok max_items /\
    max_items <= 0.





End Allocator.

(** ** The doubles of the Python program *)

(** [int(floor(x))] on a double given by sign, mantissa and exponent: a
    finite double is [m * 2^e], negated if the sign is set. *)
Definition sf_floor (x : spec_float) : Result Z :=
  match x with
  | S754_nan => Raise ValueError
  | S754_infinity _ => Raise OverflowError
  | S754_zero _ => Ok 0
  | S754_finite sign m e =>
    let n := if sign then Z.neg m else Z.pos m in
    Ok (if 0 <=? e then n * 2 ^ e else n / 2 ^ (- e))
  end.

Definition py_floor (x : float) : Result Z := sf_floor (Prim2SF x).

(** The double nearest to an [int] (ties to even). The allocator converts
    only counts that are at most the floor of a finite double, so the
    [OverflowError] of the conversion of a larger [int] cannot arise. *)
Definition sf_of_int (z : Z) : spec_float := binary_normalize prec emax z 0 false.

Definition py_float (z : Z) : float := SF2Prim (sf_of_int z).

Definition binary64 : PyFloat := {|
  num := float;
  fmul := PrimFloat.mul;
  fdiv := PrimFloat.div;
  fsub := PrimFloat.sub;
  fpositive := fun x => PrimFloat.ltb 0 x;
  fnonpositive := fun x => PrimFloat.leb x 0;
  floor_int := py_floor;
  of_int := py_float
|}.


(** The same doubles without the primitive operations: binary64 as the
    Standard Library specifies it, on sign, mantissa and exponent. *)
Definition binary64_spec : PyFloat := {|
  num := spec_float;
  fmul := SFmul prec emax;
  fdiv := SFdiv prec emax;
  fsub := SFsub prec emax;
  fpositive := fun x => SFltb (S754_zero false) x;
  fnonpositive := fun x => SFleb x (S754_zero false);
  floor_int := sf_floor;
  of_int := sf_of_int
|}.

(** ** Exact arithmetic *)

Definition exact : PyFloat := {|
  num := Q;
  fmul := Qmult;
  fdiv := Qdiv;
  fsub := Qminus;
  fpositive := Qpositive;
  fnonpositive := fun x => Qle_bool x 0;
  floor_int := fun x => Ok (Qfloor x);
  of_int := inject_Z
|}.

(** A task dict, a record and the loop variables of [Alloc], read in the
    exact arithmetic. *)
Definition of_task (t : Alloc.Task) : @Task exact :=
  mkTask (Alloc.name t) (Alloc.remaining t) (Alloc.time_per_item t : @num exact)
         (Alloc.difficulty t) (Alloc.priority t).

Definition of_assignment (a : Alloc.Assignment) : @Assignment exact :=
  mkAssignment (Alloc.a_name a) (Alloc.a_assigned a) (Alloc.a_time a : @num exact).

Definition of_state (s : Alloc.DayState) : @DayState exact :=
  mkDay (Alloc.remaining_time s : @num exact) (Alloc.any_assigned s)
        (of_task <$> Alloc.store s) (of_assignment <$> Alloc.day_plan s).

End Floating.

(** * Properties of the allocator *)

(** The boolean tests on floats against their order. *)
Lemma Qpositive_true x : Qpositive x = true <-> (0 < x)%Q.
Proof.
  unfold Qpositive. rewrite negb_true_iff. split; intros H.
  - apply Qnot_le_lt. intros Hle. apply Qle_bool_iff in Hle. congruence.
  - destruct (Qle_bool x 0) eqn:E; [|reflexivity].
    apply Qle_bool_iff in E. exfalso. exact (Qlt_not_le _ _ H E).
Qed.

Lemma Qpositive_false x : Qpositive x = false <-> (x <= 0)%Q.
Proof.
  unfold Qpositive. rewrite negb_false_iff. apply Qle_bool_iff.
Qed.

(** The round-trip scenario of the specification: capacities [[2.0, 1.0]]
    and one task of 3 items of one hour. *)
Example round_trip_scenario :
  allocate_by_priority
    (mkHeap [2%Q; 1%Q] [mkTask "X" 3 1%Q 1%Q 1]) =
  ([[mkAssignment "X" 2 (2 * (1 * 1))%Q]; [mkAssignment "X" 1 (1 * (1 * 1))%Q]],
   mkHeap [2%Q; 1%Q] [mkTask "X" 0 1%Q 1%Q 1]).
Proof. vm_compute. reflexivity. Qed.

(** ** What one iteration of the inner loop does *)

Lemma task_step_cases (s : DayState) (i : nat) :
  task_step s i = s \/
  exists t a,
    store s !! i = Some t /\ 0 < remaining t /\ (0 < time_per t)%Q /\
    1 <= a <= remaining t /\ (fits s t a \/ forced s t a) /\
    task_step s i = commit s i t a.
Proof.
  unfold task_step.
  destruct (store s !! i) as [t|] eqn:Hi; [|by left].
  destruct (Z.leb_spec (remaining t) 0) as [Hr|Hr]; [by left|].
  destruct (Qle_bool (time_per t) 0) eqn:Hc; [by left|].
  assert (Htp : (0 < time_per t)%Q).
  { apply Qpositive_true. unfold Qpositive. by rewrite Hc. }
  destruct (Qpositive (remaining_time s)) eqn:Hrt.
  - apply Qpositive_true in Hrt.
    destruct (Z.ltb_spec 0 (Qfloor (remaining_time s / time_per t))) as [Hm|Hm].
    + right. exists t, (Z.min (Qfloor (remaining_time s / time_per t)) (remaining t)).
      assert (Hpos : (0 <? Z.min (Qfloor (remaining_time s / time_per t)) (remaining t)) = true)
        by (apply Z.ltb_lt; lia).
      rewrite Hpos. unfold fits, commit.
      repeat split; try done; try lia. left. repeat split; done.
    + destruct (Z.ltb_spec 0 (remaining t)) as [_|?]; [|lia].
      destruct (any_assigned s) eqn:Hany; simpl; [by left|].
      right. exists t, 1. unfold forced, commit.
      repeat split; try done; try lia. right. repeat split; done.
  - simpl. by left.
Qed.

(** A task that is not eligible is passed over. *)
Lemma task_step_ineligible (s : DayState) (i : nat) (t : Task) :
  store s !! i = Some t -> eligibleb t = false -> task_step s i = s.
Proof.
  intros Hi He. unfold task_step. rewrite Hi.
  destruct (Z.leb_spec (remaining t) 0) as [Hr|Hr]; [done|].
  unfold eligibleb in He. apply andb_false_iff in He as [He|He].
  - apply Z.ltb_ge in He. lia.
  - apply Qpositive_false in He. apply Qle_bool_iff in He. by rewrite He.
Qed.

Lemma eligibleb_spec (t : Task) : eligibleb t = true <-> eligible t.
Proof.
  unfold eligibleb, eligible. rewrite andb_true_iff, Z.ltb_lt, Qpositive_true.
  reflexivity.
Qed.

(** Once the leftover time is not positive, nothing more is assigned. *)
Lemma task_step_no_time (s : DayState) (i : nat) :
  (remaining_time s <= 0)%Q -> task_step s i = s.
Proof.
  intros Hrt. unfold task_step.
  destruct (store s !! i) as [t|]; [|done].
  destruct (remaining t <=? 0); [done|].
  destruct (Qle_bool (time_per t) 0); [done|].
  apply Qpositive_false in Hrt. rewrite Hrt. simpl. done.
Qed.

(** With positive leftover time, an eligible task is assigned, unless it
    does not fit and the day already has an assignment. *)
Lemma task_step_eligible (s : DayState) (i : nat) (t : Task) :
  store s !! i = Some t -> eligible t -> (0 < remaining_time s)%Q ->
  any_assigned s = false ->
  exists a, 1 <= a <= remaining t /\ (fits s t a \/ forced s t a) /\
            task_step s i = commit s i t a.
Proof.
  intros Hi [Hr Htp] Hrt Hany. unfold task_step. rewrite Hi.
  destruct (Z.leb_spec (remaining t) 0) as [?|_]; [lia|].
  destruct (Qle_bool (time_per t) 0) eqn:Hc.
  { apply Qle_bool_iff in Hc. exfalso. exact (Qlt_not_le _ _ Htp Hc). }
  pose proof Hrt as Hrtb. apply Qpositive_true in Hrtb. rewrite Hrtb.
  destruct (Z.ltb_spec 0 (Qfloor (remaining_time s / time_per t))) as [Hm|Hm].
  - exists (Z.min (Qfloor (remaining_time s / time_per t)) (remaining t)).
    assert (Hpos : (0 <? Z.min (Qfloor (remaining_time s / time_per t)) (remaining t)) = true)
      by (apply Z.ltb_lt; lia).
    rewrite Hpos. unfold fits, commit. repeat split; try done; try lia.
    left. repeat split; done.
  - destruct (Z.ltb_spec 0 (remaining t)) as [_|?]; [|lia].
    rewrite Hany. simpl. exists 1. unfold forced, commit.
    repeat split; try done; try lia. right. repeat split; done.
Qed.

(** ** Loop invariants *)

(** A property kept by every iteration holds after the inner loop. *)
Lemma inner_loop_invariant (P : DayState -> Prop) (order : list nat) (s : DayState) :
  P s -> (forall s' i, P s' -> P (task_step s' i)) ->
  P (fold_left task_step order s).
Proof.
  intros Hs Hstep. revert s Hs.
  induction order as [|i order IH]; intros s Hs; simpl; auto.
Qed.

Lemma frame_eq_refl t : frame_eq t t.
Proof. by repeat split. Qed.

Lemma frame_eq_trans t1 t2 t3 : frame_eq t1 t2 -> frame_eq t2 t3 -> frame_eq t1 t3.
Proof.
  intros (?&?&?&?) (?&?&?&?). repeat split; congruence.
Qed.

Lemma frame_eq_time_per t t' : frame_eq t t' -> time_per t = time_per t'.
Proof. intros (?&Ht&Hd&?). unfold time_per. by rewrite Ht, Hd. Qed.

Lemma same_frame_refl st : same_frame st st.
Proof. apply Forall2_same_length_lookup. split; [done|]. intros i x y ? ?. simplify_eq. apply frame_eq_refl. Qed.

Lemma same_frame_trans st1 st2 st3 :
  same_frame st1 st2 -> same_frame st2 st3 -> same_frame st1 st3.
Proof.
  intros H12 H23. eapply Forall2_trans; [|exact H12|exact H23].
  intros x y z. apply frame_eq_trans.
Qed.

Lemma same_frame_insert (st : list Task) (i : nat) (t : Task) (r : Z) :
  st !! i = Some t -> same_frame st (<[i := set_remaining t r]> st).
Proof.
  intros Hi. apply Forall2_same_length_lookup. split.
  - by rewrite length_insert.
  - intros j x y Hx Hy. destruct (decide (i = j)) as [->|Hne].
    + rewrite list_lookup_insert_eq in Hy by (by eapply lookup_lt_Some).
      simplify_eq. by repeat split.
    + rewrite list_lookup_insert_ne in Hy by done. simplify_eq. apply frame_eq_refl.
Qed.

Lemma same_frame_names (st st' : list Task) :
  same_frame st st' -> name <$> st = name <$> st'.
Proof.
  induction 1 as [|t t' st st' [Hn _] _ IH]; [done|].
  rewrite !fmap_cons. by f_equal.
Qed.

Lemma same_frame_length (st st' : list Task) :
  same_frame st st' -> length st = length st'.
Proof. apply Forall2_length. Qed.

Lemma same_frame_lookup (st st' : list Task) (i : nat) (t : Task) :
  same_frame st st' -> st !! i = Some t ->
  exists t', st' !! i = Some t' /\ frame_eq t t'.
Proof. intros H Hi. eapply Forall2_lookup_l in H as (t'&?&?); eauto. Qed.

Lemma task_step_frame (s : DayState) (i : nat) :
  same_frame (store s) (store (task_step s i)).
Proof.
  destruct (task_step_cases s i) as [->|(t&a&Hi&_&_&_&_&->)].
  - apply same_frame_refl.
  - simpl. by apply same_frame_insert.
Qed.

Lemma inner_loop_frame (order : list nat) (s : DayState) :
  same_frame (store s) (store (fold_left task_step order s)).
Proof.
  apply (inner_loop_invariant (fun s' => same_frame (store s) (store s'))).
  - apply same_frame_refl.
  - intros s' i H. eapply same_frame_trans; [exact H|apply task_step_frame].
Qed.

Lemma days_loop_frame (order : list nat) (caps : list Q) (st : list Task) :
  same_frame st (snd (days_loop order caps st)).
Proof.
  revert st. induction caps as [|cap caps IH]; intros st; simpl.
  - apply same_frame_refl.
  - specialize (IH (store (day_pass order cap st))).
    destruct (days_loop order caps (store (day_pass order cap st))) as [plan st'].
    simpl in *. eapply same_frame_trans; [|exact IH].
    apply (inner_loop_frame order (mkDay cap false st [])).
Qed.

Lemma days_loop_length (order : list nat) (caps : list Q) (st : list Task) :
  length (fst (days_loop order caps st)) = length caps.
Proof.
  revert st. induction caps as [|cap caps IH]; intros st; simpl; [done|].
  specialize (IH (store (day_pass order cap st))).
  destruct (days_loop order caps (store (day_pass order cap st))). simpl in *. lia.
Qed.

(** ** Conservation of the item counts *)

Lemma assigned_to_app (nm : string) (l l' : list Assignment) :
  assigned_to nm (l ++ l') = assigned_to nm l + assigned_to nm l'.
Proof. induction l as [|a l IH]; simpl; [done|]. rewrite IH. lia. Qed.

Lemma names_distinct (st : list Task) (i j : nat) (ti tj : Task) :
  NoDup (name <$> st) -> st !! i = Some ti -> st !! j = Some tj ->
  name ti = name tj -> i = j.
Proof.
  intros Hnd Hi Hj Hn. eapply NoDup_lookup; [exact Hnd| |].
  - rewrite list_lookup_fmap, Hi. reflexivity.
  - rewrite list_lookup_fmap, Hj. simpl. by rewrite Hn.
Qed.

Lemma task_step_conserves (s : DayState) (i j : nat) (t : Task) :
  NoDup (name <$> store s) -> store s !! j = Some t ->
  exists t', store (task_step s i) !! j = Some t' /\ frame_eq t t' /\
    conserves (name t) (remaining t) (day_plan s)
              (remaining t') (day_plan (task_step s i)).
Proof.
  intros Hnd Hj.
  destruct (task_step_cases s i) as [->|(ti&a&Hi&Hr&_&Ha&_&->)].
  - exists t. repeat split; try done; lia.
  - simpl. destruct (decide (i = j)) as [->|Hne].
    + simplify_eq. exists (set_remaining t (remaining t - a)). split.
      { apply list_lookup_insert_eq. by eapply lookup_lt_Some. }
      split; [by repeat split|]. unfold conserves. simpl.
      rewrite assigned_to_app. simpl. rewrite String.eqb_refl. lia.
    + exists t. split; [by rewrite list_lookup_insert_ne|].
      split; [apply frame_eq_refl|]. unfold conserves.
      rewrite assigned_to_app. simpl.
      destruct (String.eqb_spec (name ti) (name t)) as [Heq|_]; [|lia].
      exfalso. apply Hne. eapply names_distinct; eauto.
Qed.

Lemma inner_loop_conserves (order : list nat) (s : DayState) (j : nat) (t : Task) :
  NoDup (name <$> store s) -> store s !! j = Some t ->
  exists t', store (fold_left task_step order s) !! j = Some t' /\ frame_eq t t' /\
    conserves (name t) (remaining t) (day_plan s)
              (remaining t') (day_plan (fold_left task_step order s)).
Proof.
  revert s t. induction order as [|i order IH]; intros s t Hnd Hj; simpl.
  - exists t. repeat split; try done; lia.
  - destruct (task_step_conserves s i j t Hnd Hj) as (t1&H1&Hf1&Hc1&Hle1&Hn1).
    assert (Hnd1 : NoDup (name <$> store (task_step s i))).
    { by rewrite <- (same_frame_names _ _ (task_step_frame s i)). }
    destruct (IH _ t1 Hnd1 H1) as (t2&H2&Hf2&Hc2&Hle2&Hn2).
    exists t2. split; [done|]. split; [by eapply frame_eq_trans|].
    destruct Hf1 as [Hname _]. rewrite <- Hname in Hc2.
    unfold conserves. repeat split; try lia; auto.
Qed.

Lemma days_loop_conserves (order : list nat) (caps : list Q) (st : list Task)
    (j : nat) (t : Task) :
  NoDup (name <$> st) -> st !! j = Some t ->
  exists t', snd (days_loop order caps st) !! j = Some t' /\ frame_eq t t' /\
    remaining t' = remaining t
                   - total_assigned_to (name t) (fst (days_loop order caps st)) /\
    remaining t' <= remaining t /\ (0 <= remaining t -> 0 <= remaining t').
Proof.
  unfold total_assigned_to.
  revert st t. induction caps as [|cap caps IH]; intros st t Hnd Hj; simpl.
  - exists t. repeat split; try done; lia.
  - destruct (inner_loop_conserves order (mkDay cap false st []) j t Hnd Hj)
      as (t1&H1&Hf1&Hc1&Hle1&Hn1).
    fold (day_pass order cap st) in *.
    assert (Hnd1 : NoDup (name <$> store (day_pass order cap st))).
    { pose proof (same_frame_names _ _ (inner_loop_frame order (mkDay cap false st []))) as Hn.
      simpl in Hn. unfold day_pass. by rewrite <- Hn. }
    destruct (IH _ t1 Hnd1 H1) as (t2&H2&Hf2&Hc2&Hle2&Hn2).
    destruct (days_loop order caps (store (day_pass order cap st))) as [plan st'].
    simpl in *. exists t2. split; [done|]. split; [by eapply frame_eq_trans|].
    destruct Hf1 as [Hname _]. rewrite <- Hname in Hc2.
    rewrite assigned_to_app. repeat split; try lia; auto.
Qed.

(** ** Where the records come from *)

Lemma from_task_frame (st st' : list Task) (a : Assignment) :
  same_frame st st' -> from_task st' a -> from_task st a.
Proof.
  intros Hf (i&t'&Hi&Hn&Hp&Ha&Ht).
  eapply Forall2_lookup_r in Hf as (t&Hi0&Hfe); [|exact Hi].
  exists i, t. rewrite (frame_eq_time_per _ _ Hfe).
  destruct Hfe as [Hname _]. rewrite Hname. by repeat split.
Qed.

Lemma task_step_provenance (st0 : list Task) (s : DayState) (i : nat) :
  same_frame st0 (store s) -> Forall (from_task st0) (day_plan s) ->
  Forall (from_task st0) (day_plan (task_step s i)).
Proof.
  intros Hf Hall.
  destruct (task_step_cases s i) as [->|(t&a&Hi&_&Htp&Ha&_&->)]; [done|].
  simpl. apply Forall_app. split; [done|]. apply Forall_singleton.
  apply (from_task_frame _ _ _ Hf). exists i, t. simpl. repeat split; try done; lia.
Qed.

Lemma inner_loop_provenance (st0 : list Task) (order : list nat) (s : DayState) :
  same_frame st0 (store s) -> Forall (from_task st0) (day_plan s) ->
  Forall (from_task st0) (day_plan (fold_left task_step order s)).
Proof.
  intros Hf Hall.
  apply (inner_loop_invariant
           (fun s' => same_frame st0 (store s') /\ Forall (from_task st0) (day_plan s'))).
  - done.
  - intros s' i [Hf' Hall']. split.
    + eapply same_frame_trans; [exact Hf'|apply task_step_frame].
    + by apply task_step_provenance.
Qed.

Lemma days_loop_provenance (st0 : list Task) (order : list nat) (caps : list Q)
    (st : list Task) :
  same_frame st0 st ->
  Forall (Forall (from_task st0)) (fst (days_loop order caps st)).
Proof.
  revert st. induction caps as [|cap caps IH]; intros st Hf; simpl; [constructor|].
  assert (Hf1 : same_frame st0 (store (day_pass order cap st))).
  { eapply same_frame_trans; [exact Hf|].
    apply (inner_loop_frame order (mkDay cap false st [])). }
  specialize (IH _ Hf1).
  destruct (days_loop order caps (store (day_pass order cap st))) as [plan st'].
  simpl in *. constructor; [|done].
  apply (inner_loop_provenance st0 order (mkDay cap false st [])); simpl; [done|constructor].
Qed.

(** A task of non-positive per-item cost is left as it is. *)
Lemma task_step_degenerate (s : DayState) (i j : nat) (t : Task) :
  store s !! j = Some t -> (time_per t <= 0)%Q ->
  store (task_step s i) !! j = Some t.
Proof.
  intros Hj Hd.
  destruct (task_step_cases s i) as [->|(ti&a&Hi&_&Htp&_&_&->)]; [done|].
  simpl. destruct (decide (i = j)) as [->|Hne].
  - simplify_eq. exfalso. exact (Qlt_not_le _ _ Htp Hd).
  - by rewrite list_lookup_insert_ne.
Qed.

Lemma days_loop_degenerate (order : list nat) (caps : list Q) (st : list Task)
    (j : nat) (t : Task) :
  st !! j = Some t -> (time_per t <= 0)%Q ->
  snd (days_loop order caps st) !! j = Some t.
Proof.
  revert st. induction caps as [|cap caps IH]; intros st Hj Hd; simpl; [done|].
  assert (H1 : store (day_pass order cap st) !! j = Some t).
  { apply (inner_loop_invariant (fun s' => store s' !! j = Some t)); [done|].
    intros s' i Hs'. by apply task_step_degenerate. }
  specialize (IH _ H1 Hd).
  by destruct (days_loop order caps (store (day_pass order cap st))).
Qed.

(** The two components of the result of a call. *)
Lemma plan_of_eq (caps : list Q) (tasks : list Task) :
  plan_of caps tasks = fst (days_loop (tasks_sorted tasks) caps tasks).
Proof.
  unfold plan_of, allocate_by_priority. simpl.
  by destruct (days_loop (tasks_sorted tasks) caps tasks).
Qed.

Lemma tasks_after_eq (caps : list Q) (tasks : list Task) :
  tasks_after caps tasks = snd (days_loop (tasks_sorted tasks) caps tasks).
Proof.
  unfold tasks_after, allocate_by_priority. simpl.
  by destruct (days_loop (tasks_sorted tasks) caps tasks).
Qed.

(** C1. Conservation: when the task names are unique, after
    [allocate_by_priority(capacities, tasks)] every task's [remaining]
    equals its [remaining] before the call minus the sum of the assigned
    counts recorded under its name over all days of the returned plan; and
    a count that was not negative before the call is not negative after. *)
Theorem conservation (caps : list Q) (tasks : list Task) (j : nat) (t : Task) :
  NoDup (name <$> tasks) -> tasks !! j = Some t ->
  exists t', tasks_after caps tasks !! j = Some t' /\
    remaining t' = remaining t - total_assigned_to (name t) (plan_of caps tasks) /\
    (0 <= remaining t -> 0 <= remaining t').
Proof.
  intros Hnd Hj. rewrite tasks_after_eq, plan_of_eq.
  destruct (days_loop_conserves (tasks_sorted tasks) caps tasks j t Hnd Hj)
    as (t'&Hj'&_&Heq&_&Hnn).
  exists t'. by repeat split.
Qed.

Lemma conservation_witness :
  let tasks := [mkTask "A" 4 1%Q 1%Q 2; mkTask "B" 3 (1#2)%Q 2%Q 1] in
  NoDup (name <$> tasks) /\
  exists t', tasks_after [2%Q; 3%Q] tasks !! 1%nat = Some t' /\
    remaining t' = 3 - total_assigned_to "B" (plan_of [2%Q; 3%Q] tasks) /\
    (0 <= 3 -> 0 <= remaining t').
Proof.
  assert (Hnd : NoDup (name <$> [mkTask "A" 4 1%Q 1%Q 2; mkTask "B" 3 (1#2)%Q 2%Q 1])).
  { apply (bool_decide_unpack _). vm_compute. exact I. }
  split; [exact Hnd|].
  exact (conservation [2%Q; 3%Q] _ 1%nat (mkTask "B" 3 (1#2)%Q 2%Q 1) Hnd eq_refl).
Defined.

(** ** The order in which tasks are considered *)

Lemma insert_by_perm (key : nat -> Z) (x : nat) (l : list nat) :
  insert_by key x l ≡ₚ x :: l.
Proof.
  induction l as [|y l IH]; simpl; [done|].
  destruct (key x <=? key y); [done|]. rewrite IH. apply Permutation_swap.
Qed.

Lemma sort_by_perm (key : nat -> Z) (l : list nat) : sort_by key l ≡ₚ l.
Proof.
  induction l as [|x l IH]; simpl; [done|]. by rewrite insert_by_perm, IH.
Qed.

Lemma insert_by_sorted (key : nat -> Z) (x : nat) (l : list nat) :
  StronglySorted (precedes key) l -> Forall (fun y => (x < y)%nat) l ->
  StronglySorted (precedes key) (insert_by key x l).
Proof.
  induction l as [|y l IH]; intros Hs Hlt; simpl.
  - repeat constructor.
  - apply StronglySorted_cons in Hs as [Hy Hs].
    apply Forall_cons in Hlt as [Hxy Hlt].
    destruct (Z.leb_spec (key x) (key y)) as [Hle|Hgt].
    + apply StronglySorted_cons. split; [|by apply StronglySorted_cons].
      apply Forall_cons. split.
      * unfold precedes. lia.
      * rewrite Forall_forall in Hy, Hlt |- *. intros z Hz.
        specialize (Hy z Hz). specialize (Hlt z Hz). unfold precedes in *. lia.
    + apply StronglySorted_cons. split; [|by apply IH].
      rewrite (insert_by_perm key x l). apply Forall_cons. split; [|done].
      unfold precedes. lia.
Qed.

Lemma sort_by_seq_sorted (key : nat -> Z) (a n : nat) :
  StronglySorted (precedes key) (sort_by key (seq a n)).
Proof.
  revert a. induction n as [|n IH]; intros a; simpl; [constructor|].
  apply insert_by_sorted; [apply IH|].
  rewrite (sort_by_perm key (seq (S a) n)). apply Forall_forall.
  intros y Hy. apply elem_of_seq in Hy. lia.
Qed.

Lemma tasks_sorted_perm (tasks : list Task) :
  tasks_sorted tasks ≡ₚ seq 0 (length tasks).
Proof. apply sort_by_perm. Qed.

Lemma tasks_sorted_stable (tasks : list Task) :
  StronglySorted (precedes (key_of tasks)) (tasks_sorted tasks).
Proof. apply sort_by_seq_sorted. Qed.

Lemma tasks_sorted_NoDup (tasks : list Task) : NoDup (tasks_sorted tasks).
Proof. rewrite (tasks_sorted_perm tasks). apply NoDup_seq. Qed.

Lemma tasks_sorted_complete (tasks : list Task) (i : nat) (t : Task) :
  tasks !! i = Some t -> i ∈ tasks_sorted tasks.
Proof.
  intros Hi. rewrite (tasks_sorted_perm tasks). apply elem_of_seq.
  apply lookup_lt_Some in Hi. lia.
Qed.



(** ** One day of the plan *)

Lemma days_loop_lookup (order : list nat) (caps : list Q) (st : list Task)
    (d : nat) (cap : Q) :
  caps !! d = Some cap ->
  fst (days_loop order caps st) !! d =
    Some (day_plan (day_pass order cap (snd (days_loop order (take d caps) st)))).
Proof.
  revert st d. induction caps as [|c caps IH]; intros st d Hd; [done|].
  destruct d as [|d]; simpl in *.
  - simplify_eq. by destruct (days_loop order caps (store (day_pass order cap st))).
  - specialize (IH (store (day_pass order c st)) d Hd).
    destruct (days_loop order caps (store (day_pass order c st))) as [plan st1].
    destruct (days_loop order (take d caps) (store (day_pass order c st))) as [plan2 st2].
    simpl in *. done.
Qed.

Lemma plan_of_lookup (caps : list Q) (tasks : list Task) (d : nat) (cap : Q) :
  caps !! d = Some cap ->
  plan_of caps tasks !! d =
    Some (day_plan (day_pass (tasks_sorted tasks) cap (tasks_at_day caps tasks d))).
Proof. intros Hd. rewrite plan_of_eq. by apply days_loop_lookup. Qed.

Lemma plan_of_length (caps : list Q) (tasks : list Task) :
  length (plan_of caps tasks) = length caps.
Proof. rewrite plan_of_eq. apply days_loop_length. Qed.

Lemma tasks_at_day_frame (caps : list Q) (tasks : list Task) (d : nat) :
  same_frame tasks (tasks_at_day caps tasks d).
Proof. apply days_loop_frame. Qed.

(** Splitting a run at a day. *)
Lemma days_loop_app (order : list nat) (caps1 caps2 : list Q) (st : list Task) :
  days_loop order (caps1 ++ caps2) st =
    (fst (days_loop order caps1 st)
       ++ fst (days_loop order caps2 (snd (days_loop order caps1 st))),
     snd (days_loop order caps2 (snd (days_loop order caps1 st)))).
Proof.
  revert st. induction caps1 as [|cap caps1 IH]; intros st; simpl.
  - by destruct (days_loop order caps2 st).
  - rewrite IH.
    by destruct (days_loop order caps1 (store (day_pass order cap st))).
Qed.

Lemma tasks_at_day_S (caps : list Q) (tasks : list Task) (d : nat) (cap : Q) :
  caps !! d = Some cap ->
  tasks_at_day caps tasks (S d) =
    store (day_pass (tasks_sorted tasks) cap (tasks_at_day caps tasks d)).
Proof.
  intros Hd. unfold tasks_at_day. rewrite (take_S_r _ _ _ Hd), days_loop_app.
  reflexivity.
Qed.

Lemma tasks_after_from_day (caps : list Q) (tasks : list Task) (d : nat) :
  tasks_after caps tasks =
    snd (days_loop (tasks_sorted tasks) (drop d caps) (tasks_at_day caps tasks d)).
Proof.
  rewrite tasks_after_eq. unfold tasks_at_day.
  rewrite <- (take_drop d caps) at 1. by rewrite days_loop_app.
Qed.

(** The records of a pass are appended in the order of the loop. *)
Lemma inner_loop_trace (st0 : list Task) (order : list nat) (s : DayState) :
  same_frame st0 (store s) ->
  exists l new, l `sublist_of` order /\
    day_plan (fold_left task_step order s) = day_plan s ++ new /\
    Forall2 (recorded_for st0) new l.
Proof.
  revert s. induction order as [|i order IH]; intros s Hf; simpl.
  - exists [], []. rewrite app_nil_r. repeat split; constructor.
  - assert (Hf1 : same_frame st0 (store (task_step s i))).
    { eapply same_frame_trans; [exact Hf|apply task_step_frame]. }
    destruct (IH _ Hf1) as (l&new&Hsub&Hplan&Hrec).
    destruct (task_step_cases s i) as [Heq|(t&a&Hi&_&_&_&_&Heq)]; rewrite Heq in *.
    + exists l, new. split; [by apply sublist_cons|done].
    + simpl in Hplan. rewrite <- app_assoc in Hplan. simpl in Hplan.
      exists (i :: l), (mkAssignment (name t) a (inject_Z a * time_per t)%Q :: new).
      split; [by apply sublist_skip|]. split; [done|].
      constructor; [|done].
      eapply Forall2_lookup_r in Hf as (t0&Hi0&Hfe); [|exact Hi].
      exists t0. split; [done|]. simpl. by destruct Hfe as [-> _].
Qed.

Lemma inner_loop_extends (order : list nat) (s : DayState) :
  exists new, day_plan (fold_left task_step order s) = day_plan s ++ new.
Proof.
  destruct (inner_loop_trace (store s) order s (same_frame_refl _)) as (l&new&_&H&_).
  by exists new.
Qed.

(** Passing over tasks that are not eligible changes nothing. *)
Lemma inner_loop_ineligible (pre : list nat) (s : DayState) :
  Forall (fun j => from_option eligibleb false (store s !! j) = false) pre ->
  fold_left task_step pre s = s.
Proof.
  induction pre as [|j pre IH]; intros Hall; simpl; [done|].
  apply Forall_cons in Hall as [Hj Hall].
  assert (Hs : task_step s j = s).
  { destruct (store s !! j) as [t|] eqn:Hl.
    - by apply (task_step_ineligible s j t).
    - unfold task_step. by rewrite Hl. }
  rewrite Hs. by apply IH.
Qed.

(** The first position of [l] at which [f] holds, if there is one. *)
Lemma first_split (f : nat -> bool) (l : list nat) (x : nat) :
  x ∈ l -> f x = true ->
  exists pre i post, l = pre ++ i :: post /\
    Forall (fun j => f j = false) pre /\ f i = true.
Proof.
  induction l as [|y l IH]; intros Hx Hfx; [by apply elem_of_nil in Hx|].
  destruct (f y) eqn:Hfy.
  - exists [], y, l. by repeat split.
  - apply elem_of_cons in Hx as [->|Hx]; [congruence|].
    destruct (IH Hx Hfx) as (pre&i&post&->&Hpre&Hi).
    exists (y :: pre), i, post. repeat split; [|done]. by constructor.
Qed.

(** On a day with positive capacity the first eligible task of the order
    gets the first record of the day. *)
Lemma day_pass_first_eligible (pre post : list nat) (i : nat) (cap : Q)
    (st : list Task) (t : Task) :
  Forall (fun j => from_option eligibleb false (st !! j) = false) pre ->
  st !! i = Some t -> eligible t -> (0 < cap)%Q ->
  exists a rest, 1 <= a <= remaining t /\
    day_plan (day_pass (pre ++ i :: post) cap st) =
      mkAssignment (name t) a (inject_Z a * time_per t)%Q :: rest.
Proof.
  intros Hpre Hi He Hcap. unfold day_pass. rewrite fold_left_app. simpl.
  rewrite (inner_loop_ineligible pre (mkDay cap false st [])) by done.
  destruct (task_step_eligible (mkDay cap false st []) i t Hi He Hcap eq_refl)
    as (a&Ha&_&->).
  destruct (inner_loop_extends post (commit (mkDay cap false st []) i t a)) as [rest ->].
  exists a, rest. by split.
Qed.

Lemma day_pass_nonempty (order : list nat) (cap : Q) (st : list Task)
    (j : nat) (t : Task) :
  j ∈ order -> st !! j = Some t -> eligible t -> (0 < cap)%Q ->
  day_plan (day_pass order cap st) <> [].
Proof.
  intros Hin Hj He Hcap.
  destruct (first_split (fun k => from_option eligibleb false (st !! k)) order j Hin)
    as (pre&i&post&->&Hpre&Hi).
  { rewrite Hj. simpl. by apply eligibleb_spec. }
  destruct (st !! i) as [ti|] eqn:Hti; [|done]. simpl in Hi.
  apply eligibleb_spec in Hi.
  destruct (day_pass_first_eligible pre post i cap st ti Hpre Hti Hi Hcap)
    as (a&rest&_&->).
  done.
Qed.

(** ** A task's turn in a day's pass *)











(** ** The allocator's properties *)

(** C2, as amended. On every day whose capacity is positive, if at the
    start of that day's pass some task has [remaining > 0] and a positive
    effective per-item cost, the day's assignment list is not empty. *)
Theorem capacity_or_force (caps : list Q) (tasks : list Task) (d : nat) (cap : Q)
    (j : nat) (t : Task) :
  caps !! d = Some cap -> (0 < cap)%Q ->
  tasks_at_day caps tasks d !! j = Some t ->
  0 < remaining t -> (0 < time_per t)%Q ->
  exists recs, plan_of caps tasks !! d = Some recs /\ recs <> [].
Proof.
  intros Hd Hcap Hj Hr Htp. eexists. split; [by apply plan_of_lookup|].
  apply (day_pass_nonempty _ cap _ j t); try done.
  apply lookup_lt_Some in Hj.
  rewrite <- (same_frame_length _ _ (tasks_at_day_frame caps tasks d)) in Hj.
  destruct (lookup_lt_is_Some_2 tasks j Hj) as [t0 Ht0].
  by eapply tasks_sorted_complete.
Qed.

Lemma capacity_or_force_witness :
  let caps := [(1#2)%Q; 2%Q] in
  let tasks := [mkTask "A" 3 1%Q 1%Q 1] in
  caps !! 1%nat = Some 2%Q /\ (0 < 2)%Q /\
  tasks_at_day caps tasks 1 !! 0%nat = Some (mkTask "A" 2 1%Q 1%Q 1) /\
  exists recs, plan_of caps tasks !! 1%nat = Some recs /\ recs <> [].
Proof.
  repeat split.
  exact (capacity_or_force [(1#2)%Q; 2%Q] [mkTask "A" 3 1%Q 1%Q 1] 1 2%Q 0
           (mkTask "A" 2 1%Q 1%Q 1) eq_refl eq_refl eq_refl eq_refl eq_refl).
Defined.

(** C2 as stated fails: a day of capacity 1 whose only task has
    [remaining = 1] and per-item cost 0 gets an empty assignment list. *)
Lemma capacity_or_force_counterexample :
  let caps := [1%Q] in
  let tasks := [mkTask "A" 1 0%Q 1%Q 1] in
  caps !! 0%nat = Some 1%Q /\ (0 < 1)%Q /\
  tasks_at_day caps tasks 0 !! 0%nat = Some (mkTask "A" 1 0%Q 1%Q 1) /\
  0 < remaining (mkTask "A" 1 0%Q 1%Q 1) /\
  plan_of caps tasks !! 0%nat = Some [].
Proof. repeat split. Qed.

(** C3. Force-assignment scenario: with capacities [[0.5]] and the single
    task [{remaining: 1, time_per_item: 1.0, difficulty: 1.0}] (any name,
    any priority), day 0 is assigned 1 item of the task although one item
    costs more than the capacity, and the task's [remaining] ends at 0. *)
Theorem force_assignment_scenario (nm : string) (prio : Z) :
  allocate_by_priority (mkHeap [(1#2)%Q] [mkTask nm 1 1%Q 1%Q prio]) =
    ([[mkAssignment nm 1 1%Q]], mkHeap [(1#2)%Q] [mkTask nm 0 1%Q 1%Q prio]) /\
  ((1#2) < time_per (mkTask nm 1 1%Q 1%Q prio))%Q.
Proof. split; reflexivity. Qed.

(** C4. Degenerate-task exclusion: a task whose effective per-item cost
    [time_per_item * difficulty] is [<= 0] is left unchanged by the call
    (in particular its [remaining]) and, when the task names are unique, no
    record of the returned plan bears its name. The call is a total
    function: there is no error outcome. *)
Theorem degenerate_task_excluded (caps : list Q) (tasks : list Task) (j : nat) (t : Task) :
  tasks !! j = Some t -> (time_per t <= 0)%Q ->
  tasks_after caps tasks !! j = Some t /\
  (NoDup (name <$> tasks) ->
   forall recs a, recs ∈ plan_of caps tasks -> a ∈ recs -> a_name a <> name t).
Proof.
  intros Hj Hd. split.
  - rewrite tasks_after_eq. by apply days_loop_degenerate.
  - intros Hnd recs a Hrecs Ha Hname.
    pose proof (days_loop_provenance tasks (tasks_sorted tasks) caps tasks
                  (same_frame_refl _)) as Hprov.
    rewrite <- plan_of_eq in Hprov.
    rewrite Forall_forall in Hprov. specialize (Hprov recs Hrecs).
    rewrite Forall_forall in Hprov.
    destruct (Hprov a Ha) as (i&ti&Hi&Hn&Hp&_).
    assert (i = j) by (eapply names_distinct; eauto; congruence).
    simplify_eq. exact (Qlt_not_le _ _ Hp Hd).
Qed.

Lemma degenerate_task_excluded_witness :
  let caps := [2%Q; 1%Q] in
  let tasks := [mkTask "Z" 5 0%Q 1%Q 1; mkTask "A" 2 1%Q 1%Q 2] in
  (time_per (mkTask "Z" 5 0%Q 1%Q 1) <= 0)%Q /\
  NoDup (name <$> tasks) /\
  tasks_after caps tasks !! 0%nat = Some (mkTask "Z" 5 0%Q 1%Q 1) /\
  forall recs a, recs ∈ plan_of caps tasks -> a ∈ recs -> a_name a <> "Z".
Proof.
  assert (Hd : (time_per (mkTask "Z" 5 0%Q 1%Q 1) <= 0)%Q) by (vm_compute; discriminate).
  assert (Hnd : NoDup (name <$> [mkTask "Z" 5 0%Q 1%Q 1; mkTask "A" 2 1%Q 1%Q 2])).
  { apply (bool_decide_unpack _). vm_compute. exact I. }
  destruct (degenerate_task_excluded [2%Q; 1%Q]
              [mkTask "Z" 5 0%Q 1%Q 1; mkTask "A" 2 1%Q 1%Q 2] 0
              (mkTask "Z" 5 0%Q 1%Q 1) eq_refl Hd) as [Hsame Hrecs].
  split; [exact Hd|]. split; [exact Hnd|]. split; [exact Hsame|exact (Hrecs Hnd)].
Defined.

(** C6. Frame: the call leaves the capacity list as it was, keeps the
    number of tasks, and changes in each task dict at most [remaining]:
    name, time_per_item, difficulty and priority are as before. *)
Theorem frame (h : Heap) :
  let h' := snd (allocate_by_priority h) in
  h_capacities h' = h_capacities h /\
  length (h_tasks h') = length (h_tasks h) /\
  forall j t, h_tasks h !! j = Some t ->
    exists t', h_tasks h' !! j = Some t' /\
      name t' = name t /\ time_per_item t' = time_per_item t /\
      difficulty t' = difficulty t /\ priority t' = priority t.
Proof.
  destruct h as [caps tasks]. simpl.
  pose proof (days_loop_frame (tasks_sorted tasks) caps tasks) as Hf.
  unfold allocate_by_priority. simpl.
  destruct (days_loop (tasks_sorted tasks) caps tasks) as [plan st']. simpl in *.
  split; [done|]. split; [symmetry; by apply same_frame_length|].
  intros j t Hj. destruct (same_frame_lookup _ _ j t Hf Hj) as (t'&Hj'&Hn&Ht&Hd&Hp).
  exists t'. by repeat split.
Qed.

Lemma frame_witness :
  let h := mkHeap [2%Q; 1%Q] [mkTask "X" 3 1%Q 1%Q 1] in
  exists t', h_tasks (snd (allocate_by_priority h)) !! 0%nat = Some t' /\
    name t' = "X" /\ time_per_item t' = 1%Q /\ difficulty t' = 1%Q /\ priority t' = 1.
Proof.
  destruct (frame (mkHeap [2%Q; 1%Q] [mkTask "X" 3 1%Q 1%Q 1])) as (_&_&H).
  exact (H 0%nat (mkTask "X" 3 1%Q 1%Q 1) eq_refl).
Defined.




(** On a day of positive capacity, the first record of the day is for the
    first task of the sorted order that is eligible when the day starts. *)
Theorem first_eligible_first (caps : list Q) (tasks : list Task) (d : nat) (cap : Q)
    (pre post : list nat) (i : nat) (t : Task) :
  caps !! d = Some cap -> (0 < cap)%Q ->
  tasks_sorted tasks = pre ++ i :: post ->
  Forall (fun j => from_option eligibleb false (tasks_at_day caps tasks d !! j) = false) pre ->
  tasks_at_day caps tasks d !! i = Some t -> eligible t ->
  exists a rest, 1 <= a <= remaining t /\
    plan_of caps tasks !! d =
      Some (mkAssignment (name t) a (inject_Z a * time_per t)%Q :: rest).
Proof.
  intros Hd Hcap Horder Hpre Hi He.
  rewrite (plan_of_lookup caps tasks d cap Hd), Horder.
  destruct (day_pass_first_eligible pre post i cap _ t Hpre Hi He Hcap)
    as (a&rest&Ha&->).
  by exists a, rest.
Qed.

(** * Properties of the allocator in the program's arithmetic *)

Section FloatingProperties.

Import Floating.

Context `{PyFloat}.


Lemma fl_inner_loop_raise (order : list nat) (e : PyError) :
  fold_left (fun r i => bind r (fun s => task_step s i)) order (Raise e) = Raise e.
Proof. induction order as [|i order IH]; [done|exact IH]. Qed.








End FloatingProperties.

(** ** [Alloc] is the allocator in exact arithmetic *)

Lemma sort_by_ext (key key' : nat -> Z) (l : list nat) :
  (forall i, key i = key' i) -> sort_by key l = sort_by key' l.
Proof.
  intros Hext. induction l as [|x l IH]; simpl; [done|]. rewrite IH.
  generalize (sort_by key' l). intros k.
  induction k as [|y k IHk]; simpl; [done|].
  by rewrite !Hext, IHk.
Qed.

Lemma exact_tasks_sorted (tasks : list Task) :
  @Floating.tasks_sorted Floating.exact (Floating.of_task <$> tasks) = tasks_sorted tasks.
Proof.
  unfold Floating.tasks_sorted, tasks_sorted. rewrite length_fmap.
  apply sort_by_ext. intros i. unfold Floating.key_of, key_of.
  rewrite list_lookup_fmap. by destruct (tasks !! i).
Qed.

Lemma exact_task_step (s : DayState) (i : nat) :
  @Floating.task_step Floating.exact (Floating.of_state s) i =
    Floating.Ok (Floating.of_state (task_step s i)).
Proof.
  unfold Floating.task_step, task_step.
  change (Floating.store (Floating.of_state s)) with (Floating.of_task <$> store s).
  change (Floating.remaining_time (Floating.of_state s)) with (remaining_time s).
  change (Floating.any_assigned (Floating.of_state s)) with (any_assigned s).
  change (Floating.day_plan (Floating.of_state s))
    with (Floating.of_assignment <$> day_plan s).
  rewrite list_lookup_fmap. destruct (store s !! i) as [t|]; [|reflexivity].
  change (Floating.of_task <$> Some t) with (Some (Floating.of_task t)).
  cbv beta iota zeta.
  change (Floating.remaining (Floating.of_task t)) with (remaining t).
  change (Floating.time_per (Floating.of_task t)) with (time_per t).
  change (Floating.name (Floating.of_task t)) with (name t).
  change (@Floating.fnonpositive Floating.exact (time_per t))
    with (Qle_bool (time_per t) 0).
  change (@Floating.fpositive Floating.exact (remaining_time s))
    with (Qpositive (remaining_time s)).
  change (@Floating.floor_int Floating.exact
            (@Floating.fdiv Floating.exact (remaining_time s) (time_per t)))
    with (Floating.Ok (Qfloor (remaining_time s / time_per t))).
  destruct (remaining t <=? 0); [done|].
  destruct (Qle_bool (time_per t) 0); [done|].
  destruct (Qpositive (remaining_time s)); cbn [Floating.bind andb]; [|done].
  destruct (0 <? Qfloor (remaining_time s / time_per t)).
  - destruct (0 <? Z.min (Qfloor (remaining_time s / time_per t)) (remaining t));
      unfold Floating.of_state; cbn [remaining_time any_assigned store day_plan];
      by rewrite ?list_fmap_insert, ?fmap_app.
  - destruct (0 <? remaining t), (any_assigned s); cbn [andb negb]; try done;
      cbn [Z.ltb Z.compare];
      unfold Floating.of_state; cbn [remaining_time any_assigned store day_plan];
      by rewrite ?list_fmap_insert, ?fmap_app.
Qed.

Lemma exact_inner_loop (order : list nat) (s : DayState) :
  fold_left (fun r i => Floating.bind r (fun s' => @Floating.task_step Floating.exact s' i))
            order (Floating.Ok (Floating.of_state s)) =
    Floating.Ok (Floating.of_state (fold_left task_step order s)).
Proof.
  revert s. induction order as [|i order IH]; intros s; simpl; [done|].
  by rewrite exact_task_step, IH.
Qed.

Lemma exact_days_loop (order : list nat) (caps : list Q) (st : list Task) :
  @Floating.days_loop Floating.exact order caps (Floating.of_task <$> st) =
    Floating.Ok (fmap (M:=list) Floating.of_assignment <$> fst (days_loop order caps st),
                 fmap (M:=list) Floating.of_task (snd (days_loop order caps st))).
Proof.
  revert st. induction caps as [|cap caps IH]; intros st; [done|].
  cbn [Floating.days_loop days_loop]. unfold Floating.day_pass.
  change (Floating.Ok (@Floating.mkDay Floating.exact cap false
                         (Floating.of_task <$> st) []))
    with (Floating.Ok (Floating.of_state (mkDay cap false st []))).
  rewrite (exact_inner_loop order (mkDay cap false st [])). cbn [Floating.bind].
  fold (day_pass order cap st).
  change (Floating.store (Floating.of_state (day_pass order cap st)))
    with (Floating.of_task <$> store (day_pass order cap st)).
  rewrite IH. cbn [Floating.bind fst snd].
  by destruct (days_loop order caps (store (day_pass order cap st))).
Qed.

(** On every input, the allocator over the rationals returns, and returns
    what [Alloc.allocate_by_priority] returns. *)
Theorem exact_allocate (caps : list Q) (tasks : list Task) :
  @Floating.allocate_by_priority Floating.exact caps (Floating.of_task <$> tasks) =
    Floating.Ok (fmap (M:=list) Floating.of_assignment <$> plan_of caps tasks,
                 fmap (M:=list) Floating.of_task (tasks_after caps tasks)).
Proof.
  unfold Floating.allocate_by_priority.
  rewrite exact_tasks_sorted, exact_days_loop, plan_of_eq, tasks_after_eq. done.
Qed.




(** The same call evaluated in the specification of binary64, on sign,
    mantissa and exponent: again 17 items, and a recorded time above the
    capacity. *)
Example overflow_in_binary64_spec :
  let tenth := S754_finite false 7205759403792794 (-56) in
  let one := S754_finite false 4503599627370496 (-52) in
  let cap := S754_finite false 7656119366529843 (-52) in
  let time := S754_finite false 7656119366529844 (-52) in
  Prim2SF 0.1%float = tenth /\ Prim2SF 1%float = one /\
  Prim2SF 1.7%float = cap /\ Prim2SF 1.7000000000000002%float = time /\
  @Floating.allocate_by_priority Floating.binary64_spec [cap]
    [@Floating.mkTask Floating.binary64_spec "A" 20 tenth one 1] =
  Floating.Ok
    ([[@Floating.mkAssignment Floating.binary64_spec "A" 17 time]],
     [@Floating.mkTask Floating.binary64_spec "A" 3 tenth one 1]) /\
  SFltb cap time = true.
Proof. repeat split; vm_compute; reflexivity. Qed.


(** ** When the call raises *)

(** X18. The error outcome. When day 0 has a positive capacity and the
    first task of the order has [remaining > 0] and a per-item cost for
    which [time_per <= 0] is false, the call raises whatever
    [int(floor(capacity / time_per))] raises: [OverflowError] on an
    infinite quotient, [ValueError] on a NaN. *)
Theorem allocation_raises `{Floating.PyFloat} (cap : Floating.num)
    (caps : list Floating.num) (tasks : list Floating.Task) (i : nat)
    (rest : list nat) (t : Floating.Task) (e : Floating.PyError) :
  Floating.tasks_sorted tasks = i :: rest -> tasks !! i = Some t ->
  0 < Floating.remaining t ->
  Floating.fnonpositive (Floating.time_per t) = false ->
  Floating.fpositive cap = true ->
  Floating.floor_int (Floating.fdiv cap (Floating.time_per t)) = Floating.Raise e ->
  Floating.allocate_by_priority (cap :: caps) tasks = Floating.Raise e.
Proof.
  intros Horder Hi Hr Hc Hcap Hfloor.
  unfold Floating.allocate_by_priority. rewrite Horder.
  cbn [Floating.days_loop]. unfold Floating.day_pass.
  cbn [fold_left Floating.bind].
  assert (Hstep : Floating.task_step (Floating.mkDay cap false tasks []) i =
                  Floating.Raise e).
  { unfold Floating.task_step. cbn [Floating.store Floating.remaining_time].
    rewrite Hi. destruct (Z.leb_spec (Floating.remaining t) 0) as [?|_]; [lia|].
    by rewrite Hc, Hcap, Hfloor. }
  by rewrite Hstep, fl_inner_loop_raise.
Qed.

Lemma allocation_raises_witness :
  let t := @Floating.mkTask Floating.binary64 "A" 1 1%float 1%float 1 in
  @Floating.tasks_sorted Floating.binary64 [t] = [0%nat] /\
  @Floating.floor_int Floating.binary64
    (@Floating.fdiv Floating.binary64 infinity (Floating.time_per t)) =
    Floating.Raise Floating.OverflowError /\
  @Floating.allocate_by_priority Floating.binary64 [infinity; 1%float] [t] =
    Floating.Raise Floating.OverflowError.
Proof.
  split; [reflexivity|]. split; [reflexivity|].
  exact (@allocation_raises Floating.binary64 infinity [1%float]
           [@Floating.mkTask Floating.binary64 "A" 1 1%float 1%float 1] 0%nat []
           (@Floating.mkTask Floating.binary64 "A" 1 1%float 1%float 1)
           Floating.OverflowError eq_refl eq_refl eq_refl eq_refl eq_refl eq_refl).
Defined.

(** A per-item time that is a NaN passes the test [time_per <= 0] and
    makes [int(floor(...))] raise [ValueError]. *)
Example nan_cost_raises :
  @Floating.allocate_by_priority Floating.binary64 [2%float]
    [@Floating.mkTask Floating.binary64 "A" 1 nan 1%float 1] =
  Floating.Raise Floating.ValueError.
Proof. reflexivity. Qed.

(** * Properties of the replanner *)

(** The replan clamp scenario run end to end: two rows of task X (2 items
    on day 1, 3 on day 2), today is day 2, the user types 10. *)
Example replan_clamp_example :
  let r := run [mkRow 1 "X" 2 2%Q; mkRow 2 "X" 3 3%Q] [2%Q; 3%Q; 1%Q]
               (Some 2) (fun _ => Number 10) [] in
  (name <$> remaining_tasks r) = ["X"] /\ (remaining <$> remaining_tasks r) = [0] /\
  printed r = [Msg_clamped 10 3].
Proof. vm_compute. repeat split; reflexivity. Qed.

(** ** Insertion-ordered dicts *)

Section Dict.
Context {V : Type}.
Implicit Types (d : dict V) (k : string) (v : V).

Lemma dict_get_set_eq k v d : dict_get k (dict_set k v d) = Some v.
Proof.
  induction d as [|[k' v'] d IH]; simpl.
  - by rewrite String.eqb_refl.
  - destruct (String.eqb_spec k' k) as [->|Hne]; simpl.
    + by rewrite String.eqb_refl.
    + destruct (String.eqb_spec k' k); [done|]. exact IH.
Qed.

Lemma dict_get_set_ne k k' v d :
  k <> k' -> dict_get k' (dict_set k v d) = dict_get k' d.
Proof.
  intros Hne. induction d as [|[k0 v0] d IH]; simpl.
  - destruct (String.eqb_spec k k'); [done|reflexivity].
  - destruct (String.eqb_spec k0 k) as [->|Hne0]; simpl.
    + destruct (String.eqb_spec k k'); [done|reflexivity].
    + by rewrite IH.
Qed.

Lemma dict_get_None k d : dict_get k d = None <-> k ∉ (fst <$> d).
Proof.
  induction d as [|[k' v'] d IH]; simpl.
  - split; [intros _; apply not_elem_of_nil|done].
  - rewrite not_elem_of_cons. simpl.
    destruct (String.eqb_spec k' k) as [->|Hne]; [split; [done|by intros [? _]]|].
    rewrite IH. split; [by split|by intros [_ ?]].
Qed.

Lemma dict_set_keys k v d :
  fst <$> dict_set k v d =
    match dict_get k d with
    | Some _ => fst <$> d
    | None => (fst <$> d) ++ [k]
    end.
Proof.
  induction d as [|[k' v'] d IH]; [done|]. cbn [dict_set dict_get].
  destruct (String.eqb_spec k' k) as [->|Hne]; rewrite !fmap_cons; [done|].
  rewrite IH. by destruct (dict_get k d).
Qed.

Lemma dict_set_NoDup k v d : NoDup (fst <$> d) -> NoDup (fst <$> dict_set k v d).
Proof.
  intros Hnd. rewrite dict_set_keys. destruct (dict_get k d) eqn:Hk; [done|].
  apply NoDup_app. split; [done|]. split; [|apply NoDup_singleton].
  intros x Hx Hx'. apply list_elem_of_singleton in Hx'. subst x.
  by apply dict_get_None in Hk.
Qed.

Lemma dict_get_lookup d (i : nat) k v :
  NoDup (fst <$> d) -> d !! i = Some (k, v) -> dict_get k d = Some v.
Proof.
  revert i. induction d as [|[k' v'] d IH]; intros i Hnd Hi; [done|].
  rewrite fmap_cons in Hnd. apply NoDup_cons in Hnd as [Hnotin Hnd].
  destruct i as [|i]; simpl in *.
  - simplify_eq. by rewrite String.eqb_refl.
  - destruct (String.eqb_spec k' k) as [->|Hne]; [|by eapply IH].
    exfalso. apply Hnotin. apply list_elem_of_fmap. exists (k, v).
    split; [done|]. by eapply list_elem_of_lookup_2.
Qed.

Lemma dict_get_fmap {W : Type} (f : V -> W) k d :
  dict_get k (prod_map id f <$> d) = f <$> dict_get k d.
Proof.
  induction d as [|[k' v'] d IH]; simpl; [done|].
  by destruct (String.eqb k' k).
Qed.

Lemma dict_keys_fmap {W : Type} (f : V -> W) d :
  fst <$> (prod_map id f <$> d) = fst <$> d.
Proof.
  induction d as [|[k' v'] d IH]; [done|]. rewrite !fmap_cons. by rewrite IH.
Qed.
End Dict.

(** ** Aggregation of the history *)

Lemma sumZ_app (l l' : list Z) : sumZ (l ++ l') = sumZ l + sumZ l'.
Proof. induction l as [|x l IH]; simpl; [done|]. rewrite IH. lia. Qed.

Lemma rows_of_snoc (nm : string) (rows : list PlanRow) (r : PlanRow) :
  rows_of nm (rows ++ [r]) =
    rows_of nm rows ++ (if String.eqb (r_name r) nm then [r] else []).
Proof. unfold rows_of. rewrite List.filter_app. reflexivity. Qed.

Lemma samples_of_snoc (rows : list PlanRow) (r : PlanRow) :
  samples_of (rows ++ [r]) =
    samples_of rows ++
      (if 0 <? r_assigned r then [(r_time r / inject_Z (r_assigned r))%Q] else []).
Proof.
  unfold samples_of. rewrite List.filter_app, fmap_app. simpl.
  by destruct (0 <? r_assigned r).
Qed.

Lemma min_day_snoc (r0 : PlanRow) (rest : list PlanRow) (r : PlanRow) :
  min_day r0 (rest ++ [r]) = Z.min (min_day r0 rest) (r_day r).
Proof. unfold min_day. by rewrite fmap_app, fold_left_app. Qed.

Lemma first_loop_get (rows : list PlanRow) (nm : string) :
  dict_get nm (fold_left aggregate_row rows []) = collected nm rows.
Proof.
  induction rows as [|r rows IH] using rev_ind.
  - unfold collected. simpl. by destruct (String.eqb nm idle_sentinel).
  - rewrite fold_left_app. simpl. unfold aggregate_row at 1.
    unfold collected in *. rewrite rows_of_snoc.
    destruct (String.eqb_spec (r_name r) idle_sentinel) as [Hidle|Hnidle].
    { rewrite IH. destruct (String.eqb_spec nm idle_sentinel) as [|Hnm]; [done|].
      destruct (String.eqb_spec (r_name r) nm); [congruence|]. by rewrite app_nil_r. }
    destruct (String.eqb_spec (r_name r) nm) as [Heq|Hne].
    + subst nm. rewrite dict_get_set_eq, IH.
      destruct (String.eqb_spec (r_name r) idle_sentinel); [done|].
      destruct (rows_of (r_name r) rows) as [|r0 rest];
        cbn [total_assigned time_per_item_samples first_day info_time_per_item].
      * unfold min_day. simpl. f_equal. f_equal; [lia| |lia]. unfold samples_of. simpl.
        by destruct (0 <? r_assigned r).
      * change ((r0 :: rest) ++ [r]) with (r0 :: (rest ++ [r])).
        f_equal. f_equal.
        -- rewrite !fmap_cons, fmap_app. cbn [sumZ]. rewrite sumZ_app.
           cbn [sumZ fmap list_fmap]. lia.
        -- rewrite app_comm_cons, samples_of_snoc.
           by destruct (0 <? r_assigned r); rewrite ?app_nil_r.
        -- by rewrite min_day_snoc.
    + rewrite dict_get_set_ne by done. rewrite IH. by rewrite app_nil_r.
Qed.

Lemma first_loop_NoDup (rows : list PlanRow) :
  NoDup (fst <$> fold_left aggregate_row rows []).
Proof.
  induction rows as [|r rows IH] using rev_ind; [constructor|].
  rewrite fold_left_app. simpl. unfold aggregate_row.
  destruct (String.eqb (r_name r) idle_sentinel); [done|].
  by apply dict_set_NoDup.
Qed.

Lemma aggregate_NoDup (rows : list PlanRow) :
  NoDup (fst <$> aggregate_tasks_from_plan rows).
Proof.
  unfold aggregate_tasks_from_plan. rewrite dict_keys_fmap. apply first_loop_NoDup.
Qed.

Lemma aggregate_get (rows : list PlanRow) (nm : string) :
  dict_get nm (aggregate_tasks_from_plan rows) = set_estimate <$> collected nm rows.
Proof.
  unfold aggregate_tasks_from_plan. by rewrite dict_get_fmap, first_loop_get.
Qed.

(** [min_day] is a minimum: attained, and below every day of the rows. *)
Lemma min_day_lower (r0 : PlanRow) (rest : list PlanRow) (r : PlanRow) :
  r ∈ r0 :: rest -> min_day r0 rest <= r_day r.
Proof.
  unfold min_day. revert r0.
  assert (Hle : forall (l : list Z) (a : Z), fold_left Z.min l a <= a).
  { induction l as [|x l IH]; intros a; simpl; [lia|]. specialize (IH (Z.min a x)). lia. }
  induction rest as [|r1 rest IH]; intros r0 Hr.
  - apply list_elem_of_singleton in Hr. subst. simpl. lia.
  - rewrite fmap_cons. simpl. apply elem_of_cons in Hr as [->|Hr].
    + specialize (Hle (r_day <$> rest) (Z.min (r_day r0) (r_day r1))). lia.
    + apply elem_of_cons in Hr as [->|Hr].
      * specialize (Hle (r_day <$> rest) (Z.min (r_day r0) (r_day r1))). lia.
      * destruct (Z.min_spec (r_day r0) (r_day r1)) as [[_ ->]|[_ ->]].
        -- apply IH. by apply elem_of_cons; right.
        -- apply IH. by apply elem_of_cons; right.
Qed.

Lemma min_day_attained (r0 : PlanRow) (rest : list PlanRow) :
  exists r, r ∈ r0 :: rest /\ min_day r0 rest = r_day r.
Proof.
  unfold min_day. revert r0. induction rest as [|r1 rest IH]; intros r0.
  - exists r0. split; [by apply list_elem_of_singleton|done].
  - rewrite fmap_cons. simpl.
    destruct (Z.min_spec (r_day r0) (r_day r1)) as [[_ ->]|[_ ->]].
    + destruct (IH r0) as (r&Hr&->). exists r. split; [|done].
      apply elem_of_cons in Hr as [->|Hr]; [by left|by right; right].
    + destruct (IH r1) as (r&Hr&->). exists r. split; [by right|done].
Qed.

Lemma rows_of_elem (nm : string) (rows : list PlanRow) (r : PlanRow) :
  r ∈ rows_of nm rows <-> r ∈ rows /\ r_name r = nm.
Proof.
  unfold rows_of. rewrite !list_elem_of_In, List.filter_In, String.eqb_eq. reflexivity.
Qed.

Lemma collected_Some (nm : string) (rows : list PlanRow) :
  nm <> idle_sentinel -> nm ∈ (r_name <$> rows) ->
  exists r0 rest, rows_of nm rows = r0 :: rest /\
    collected nm rows =
      Some (mkInfo (sumZ (r_assigned <$> r0 :: rest)) (samples_of (r0 :: rest))
                   (min_day r0 rest) None).
Proof.
  intros Hnm Hin. unfold collected.
  destruct (String.eqb_spec nm idle_sentinel); [done|].
  apply list_elem_of_fmap in Hin as (r&Hr&Hrin).
  assert (Hmine : r ∈ rows_of nm rows) by (by apply rows_of_elem).
  destruct (rows_of nm rows) as [|r0 rest]; [by apply elem_of_nil in Hmine|].
  by exists r0, rest.
Qed.

Lemma collected_inv (nm : string) (rows : list PlanRow) (c : TaskInfo) :
  collected nm rows = Some c ->
  nm <> idle_sentinel /\
  exists r0 rest, rows_of nm rows = r0 :: rest /\
    c = mkInfo (sumZ (r_assigned <$> r0 :: rest)) (samples_of (r0 :: rest))
               (min_day r0 rest) None.
Proof.
  unfold collected. destruct (String.eqb_spec nm idle_sentinel); [done|].
  destruct (rows_of nm rows) as [|r0 rest]; [done|].
  intros [= <-]. split; [done|]. by exists r0, rest.
Qed.

(** C9. History aggregation: rows named by the idle sentinel produce no
    entry; for every other task name in the rows the table holds
    [total_assigned] = the sum of [assigned] over the task's rows,
    [first_day] = the minimum day among them, and [time_per_item] = the mean
    of [time / assigned] over the task's rows with [assigned > 0], or 1.0
    when there is no such row. *)
Theorem history_aggregation (rows : list PlanRow) :
  dict_get idle_sentinel (aggregate_tasks_from_plan rows) = None /\
  forall nm, nm <> idle_sentinel -> nm ∈ (r_name <$> rows) ->
    let mine := rows_of nm rows in
    let samples := samples_of mine in
    exists info, dict_get nm (aggregate_tasks_from_plan rows) = Some info /\
      total_assigned info = sumZ (r_assigned <$> mine) /\
      (exists r, r ∈ mine /\ first_day info = r_day r) /\
      (forall r, r ∈ mine -> first_day info <= r_day r) /\
      info_time_per_item info =
        Some (match samples with
              | [] => 1%Q
              | _ :: _ => (sumQ samples / inject_Z (Z.of_nat (length samples)))%Q
              end).
Proof.
  split.
  - rewrite aggregate_get. unfold collected. by rewrite String.eqb_refl.
  - intros nm Hnm Hin mine samples. subst mine samples.
    destruct (collected_Some nm rows Hnm Hin) as (r0&rest&Hrows&Hc).
    rewrite aggregate_get, Hc, Hrows. eexists. split; [reflexivity|].
    cbn [set_estimate total_assigned time_per_item_samples first_day info_time_per_item].
    split; [done|]. split; [apply min_day_attained|].
    split; [apply min_day_lower|done].
Qed.

Lemma history_aggregation_witness :
  let rows := [mkRow 2 "X" 2 1%Q; mkRow 1 "(休憩/学習無し)" 0 0%Q; mkRow 1 "X" 1 1%Q] in
  "X" <> idle_sentinel /\ "X" ∈ (r_name <$> rows) /\
  exists info, dict_get "X" (aggregate_tasks_from_plan rows) = Some info /\
    total_assigned info = 3 /\ first_day info <= 1 /\
    info_time_per_item info = Some (sumQ [(1 / 2)%Q; (1 / 1)%Q] / 2)%Q.
Proof.
  assert (Hne : "X" <> idle_sentinel) by discriminate.
  assert (Hin : "X" ∈ (r_name <$> [mkRow 2 "X" 2 1%Q; mkRow 1 "(休憩/学習無し)" 0 0%Q;
                                   mkRow 1 "X" 1 1%Q])) by (left).
  split; [exact Hne|]. split; [exact Hin|].
  destruct (proj2 (history_aggregation
                     [mkRow 2 "X" 2 1%Q; mkRow 1 "(休憩/学習無し)" 0 0%Q; mkRow 1 "X" 1 1%Q])
                  "X" Hne Hin) as (info&Hget&Htot&_&Hlow&Htpi).
  exists info. split; [exact Hget|]. split; [exact Htot|].
  split; [|exact Htpi].
  apply (Hlow (mkRow 1 "X" 1 1%Q)). right. left.
Defined.

(** ** Reading the completed counts *)

Lemma accept_done_range (total prev today_assigned : Z) (reply : Reply) :
  0 <= fst (accept_done total prev today_assigned reply) <= Z.max 0 (total - prev).
Proof.
  unfold accept_done.
  destruct (Z.min (total - prev) today_assigned <? 0) eqn:Hs;
    destruct reply as [|z|]; simpl;
    repeat match goal with
           | |- context [?a <? ?b] => destruct (Z.ltb_spec a b); simpl
           end; lia.
Qed.

Lemma completion_loop_lookup (rows : list PlanRow) (today : Z)
    (replies : nat -> Reply) (infos : dict TaskInfo) (k : nat) (nm : string)
    (info : TaskInfo) :
  infos !! k = Some (nm, info) ->
  fst (completion_loop rows today replies infos) !! k =
    Some (nm, mkCompleted
                (fst (accept_done (total_assigned info) (prev_of rows nm today)
                        (today_assigned_of rows nm today) (replies k)))
                (prev_of rows nm today)).
Proof.
  intros Hk. unfold completion_loop. cbn [fst].
  rewrite list_lookup_fmap, list_lookup_imap, Hk. simpl.
  by destruct (accept_done (total_assigned info) (prev_of rows nm today)
                 (today_assigned_of rows nm today) (replies k)).
Qed.

Lemma completion_loop_keys (rows : list PlanRow) (today : Z)
    (replies : nat -> Reply) (infos : dict TaskInfo) :
  fst <$> fst (completion_loop rows today replies infos) = fst <$> infos.
Proof.
  apply list_eq. intros k. rewrite !list_lookup_fmap.
  destruct (infos !! k) as [[nm info]|] eqn:Hk.
  - by rewrite (completion_loop_lookup rows today replies infos k nm info Hk).
  - unfold completion_loop. cbn [fst].
    by rewrite list_lookup_fmap, list_lookup_imap, Hk.
Qed.

(** C7. Completion-input clamping: the count accepted for a task lies in
    [[0, max(0, total_assigned - prev)]]; a negative input becomes 0; an
    input above the upper bound becomes the bound and a warning is
    printed; an input inside the range is taken as it is; and with
    [total_assigned = 5], [prev = 2], the input 10 is clamped to 3 with a
    warning, and the derived remaining is 0. *)
Theorem completion_clamping :
  (forall total prev today_assigned reply,
     0 <= fst (accept_done total prev today_assigned reply) <= Z.max 0 (total - prev)) /\
  (forall total prev today_assigned z, z < 0 ->
     accept_done total prev today_assigned (Number z) = (0, [])) /\
  (forall total prev today_assigned z, Z.max 0 (total - prev) < z ->
     accept_done total prev today_assigned (Number z) =
       (Z.max 0 (total - prev), [Msg_clamped z (Z.max 0 (total - prev))])) /\
  (forall total prev today_assigned z, 0 <= z <= Z.max 0 (total - prev) ->
     accept_done total prev today_assigned (Number z) = (z, [])) /\
  (forall rows today replies k nm info,
     aggregate_tasks_from_plan rows !! k = Some (nm, info) ->
     exists c, dict_get nm (fst (completion_loop rows today replies
                                   (aggregate_tasks_from_plan rows))) = Some c /\
       prev_done c = prev_of rows nm today /\
       0 <= done_today c <= Z.max 0 (total_assigned info - prev_done c)) /\
  (let rows := [mkRow 1 "X" 2 2%Q; mkRow 2 "X" 3 3%Q] in
   let r := run rows [2%Q; 3%Q; 1%Q] (Some 2) (fun _ => Number 10) [] in
   total_assigned <$> dict_get "X" (aggregate_tasks_from_plan rows) = Some 5 /\
   prev_of rows "X" 2 = 2 /\
   accept_done 5 2 (today_assigned_of rows "X" 2) (Number 10) = (3, [Msg_clamped 10 3]) /\
   printed r = [Msg_clamped 10 3] /\
   (remaining <$> remaining_tasks r) = [0]).
Proof.
  split; [apply accept_done_range|]. split; [|split; [|split; [|split]]].
  - intros total prev ta z Hz. unfold accept_done. simpl.
    destruct (Z.ltb_spec z 0); [|lia].
    destruct (Z.ltb_spec (Z.max 0 (total - prev)) 0); [lia|].
    by destruct (Z.min (total - prev) ta <? 0).
  - intros total prev ta z Hz. unfold accept_done. simpl.
    destruct (Z.ltb_spec z 0); [lia|].
    destruct (Z.ltb_spec (Z.max 0 (total - prev)) z); [|lia].
    by destruct (Z.min (total - prev) ta <? 0).
  - intros total prev ta z Hz. unfold accept_done. simpl.
    destruct (Z.ltb_spec z 0); [lia|].
    destruct (Z.ltb_spec (Z.max 0 (total - prev)) z); [lia|].
    by destruct (Z.min (total - prev) ta <? 0).
  - intros rows today replies k nm info Hk.
    eexists. split.
    + eapply dict_get_lookup.
      * rewrite completion_loop_keys. apply aggregate_NoDup.
      * by apply completion_loop_lookup.
    + simpl. split; [done|]. apply accept_done_range.
  - vm_compute. repeat split; reflexivity.
Qed.

Lemma completion_clamping_witness :
  (-4 < 0 /\ accept_done 5 2 3 (Number (-4)) = (0, [])) /\
  (Z.max 0 (5 - 2) < 10 /\
   accept_done 5 2 3 (Number 10) = (Z.max 0 (5 - 2), [Msg_clamped 10 (Z.max 0 (5 - 2))])) /\
  (0 <= 1 <= Z.max 0 (5 - 2) /\ accept_done 5 2 3 (Number 1) = (1, [])).
Proof.
  destruct completion_clamping as (_&Hneg&Hhigh&Hin&_).
  assert (H1 : -4 < 0) by reflexivity.
  assert (H2 : Z.max 0 (5 - 2) < 10) by reflexivity.
  assert (H3 : 0 <= 1 <= Z.max 0 (5 - 2)) by (split; discriminate).
  split; [split; [exact H1|exact (Hneg 5 2 3 (-4) H1)]|].
  split; [split; [exact H2|exact (Hhigh 5 2 3 10 H2)]|].
  split; [exact H3|exact (Hin 5 2 3 1 H3)].
Defined.

(** ** The derived task set *)

Lemma aggregate_entry (rows : list PlanRow) (k : nat) (nm : string) (info : TaskInfo) :
  aggregate_tasks_from_plan rows !! k = Some (nm, info) ->
  nm <> idle_sentinel /\
  exists r0 rest, rows_of nm rows = r0 :: rest /\
    info = set_estimate
             (mkInfo (sumZ (r_assigned <$> r0 :: rest)) (samples_of (r0 :: rest))
                     (min_day r0 rest) None).
Proof.
  intros Hk.
  pose proof (dict_get_lookup _ k nm info (aggregate_NoDup rows) Hk) as Hget.
  rewrite aggregate_get in Hget.
  destruct (collected nm rows) as [c|] eqn:Hc; [|done].
  simpl in Hget. injection Hget as <-.
  destruct (collected_inv nm rows c Hc) as (Hnm&r0&rest&Hrows&->).
  split; [done|]. by exists r0, rest.
Qed.

Lemma run_remaining_tasks (rows : list PlanRow) (day_capacities : list Q)
    (today_reply : option Z) (replies : nat -> Reply) (typed : list Q) :
  remaining_tasks (run rows day_capacities today_reply replies typed) =
    derive_task rows (read_today today_reply)
      (fst (completion_loop rows (read_today today_reply) replies
              (aggregate_tasks_from_plan rows)))
    <$> aggregate_tasks_from_plan rows.
Proof. reflexivity. Qed.

Lemma run_new_plan (rows : list PlanRow) (day_capacities : list Q)
    (today_reply : option Z) (replies : nat -> Reply) (typed : list Q) :
  let r := run rows day_capacities today_reply replies typed in
  new_plan r = plan_of (next_caps r) (remaining_tasks r).
Proof. reflexivity. Qed.

Lemma derived_names (rows : list PlanRow) (today : Z) (completed : dict Completed)
    (infos : dict TaskInfo) :
  name <$> (derive_task rows today completed <$> infos) = fst <$> infos.
Proof.
  rewrite <- list_fmap_compose. apply list_fmap_ext. by intros _ [nm info] _.
Qed.

Lemma derive_task_fields (rows : list PlanRow) (today : Z) (completed : dict Completed)
    (nm : string) (info : TaskInfo) (c : Completed) :
  dict_get nm completed = Some c ->
  derive_task rows today completed (nm, info) =
    mkTask nm (Z.max 0 (total_assigned info - prev_of rows nm today - done_today c))
           (default 1%Q (info_time_per_item info)) 1%Q (first_day info).
Proof.
  intros Hc. unfold derive_task. rewrite Hc. cbn [from_option]. f_equal.
  match goal with |- context [?a <? 0] => destruct (Z.ltb_spec a 0) end; lia.
Qed.

(** C8. Replan derivation and conservation: the [k]-th derived task has the
    name of the [k]-th table entry, [remaining = max(0, total_assigned -
    prev - done_today)] with [done_today] the count accepted for it,
    [priority] = the entry's [first_day] (the earliest day of the task's
    rows), [difficulty = 1.0] and [time_per_item] = the aggregated estimate;
    the plan [run] builds is the allocator's plan for the derived set, and
    for any capacities the allocator assigns to each derived task at most
    its [remaining] in total. *)
Theorem replan_derivation (rows : list PlanRow) (day_capacities : list Q)
    (today_reply : option Z) (replies : nat -> Reply) (typed : list Q) :
  let r := run rows day_capacities today_reply replies typed in
  let infos := aggregate_tasks_from_plan rows in
  let today := read_today today_reply in
  length (remaining_tasks r) = length infos /\
  new_plan r = plan_of (next_caps r) (remaining_tasks r) /\
  forall k nm info, infos !! k = Some (nm, info) ->
    let prev := prev_of rows nm today in
    let done := fst (accept_done (total_assigned info) prev
                       (today_assigned_of rows nm today) (replies k)) in
    exists t, remaining_tasks r !! k = Some t /\
      name t = nm /\
      remaining t = Z.max 0 (total_assigned info - prev - done) /\
      priority t = first_day info /\
      (exists row, row ∈ rows /\ r_name row = nm /\ r_day row = first_day info) /\
      (forall row, row ∈ rows -> r_name row = nm -> first_day info <= r_day row) /\
      difficulty t = 1%Q /\
      info_time_per_item info = Some (estimate (time_per_item_samples info)) /\
      time_per_item t = estimate (time_per_item_samples info) /\
      forall caps, total_assigned_to nm (plan_of caps (remaining_tasks r)) <= remaining t.
Proof.
  intros r infos today. subst r infos today.
  rewrite run_remaining_tasks. split; [by rewrite length_fmap|].
  split; [apply run_new_plan|].
  intros k nm info Hk prev done. subst prev done.
  set (today := read_today today_reply).
  set (completed := fst (completion_loop rows today replies (aggregate_tasks_from_plan rows))).
  destruct (aggregate_entry rows k nm info Hk) as (Hnm&r0&rest&Hrows&Hinfo).
  assert (Hdone : dict_get nm completed =
            Some (mkCompleted
                    (fst (accept_done (total_assigned info) (prev_of rows nm today)
                            (today_assigned_of rows nm today) (replies k)))
                    (prev_of rows nm today))).
  { eapply dict_get_lookup.
    - unfold completed. rewrite completion_loop_keys. apply aggregate_NoDup.
    - by apply completion_loop_lookup. }
  assert (Htpi : info_time_per_item info = Some (estimate (time_per_item_samples info)))
    by (by rewrite Hinfo).
  set (derived := derive_task rows today completed <$> aggregate_tasks_from_plan rows).
  assert (Hlook : derived !! k = Some (derive_task rows today completed (nm, info))).
  { unfold derived. by rewrite list_lookup_fmap, Hk. }
  assert (Hnd : NoDup (name <$> derived)).
  { unfold derived. rewrite derived_names. apply aggregate_NoDup. }
  rewrite (derive_task_fields rows today completed nm info _ Hdone) in Hlook.
  cbn [done_today] in Hlook. rewrite Htpi in Hlook. cbn [default] in Hlook.
  eexists. split; [exact Hlook|]. cbn [name remaining priority difficulty time_per_item].
  split; [done|]. split; [done|]. split; [done|]. split.
  { destruct (min_day_attained r0 rest) as (row&Hin&Hmin).
    rewrite <- Hrows in Hin. apply rows_of_elem in Hin as [Hin Hname].
    exists row. rewrite Hinfo. by repeat split. }
  split.
  { intros row Hin Hname. rewrite Hinfo. cbn [set_estimate first_day].
    apply min_day_lower. rewrite <- Hrows. by apply rows_of_elem. }
  split; [done|]. split; [done|]. split; [done|].
  intros caps.
  destruct (days_loop_conserves (tasks_sorted derived) caps derived k _ Hnd Hlook)
    as (t'&_&_&Heq&_&Hnn).
  rewrite <- plan_of_eq in Heq. cbn [name remaining] in Heq, Hnn. lia.
Qed.

Lemma replan_derivation_witness :
  let rows := [mkRow 1 "X" 2 2%Q; mkRow 2 "X" 3 3%Q] in
  let r := run rows [2%Q; 3%Q; 1%Q] (Some 2) (fun _ => Number 1) [] in
  exists info t,
    aggregate_tasks_from_plan rows !! 0%nat = Some ("X", info) /\
    remaining_tasks r !! 0%nat = Some t /\ name t = "X" /\
    remaining t = Z.max 0 (total_assigned info - 2 - 1) /\
    priority t = first_day info /\ difficulty t = 1%Q /\
    forall caps, total_assigned_to "X" (plan_of caps (remaining_tasks r)) <= remaining t.
Proof.
  destruct (replan_derivation [mkRow 1 "X" 2 2%Q; mkRow 2 "X" 3 3%Q] [2%Q; 3%Q; 1%Q]
              (Some 2) (fun _ => Number 1) []) as (_&_&H).
  destruct (H 0%nat "X" _ eq_refl) as (t&Ht&Hn&Hr&Hp&_&_&Hd&_&_&Hc).
  eexists. exists t. split; [reflexivity|].
  split; [exact Ht|]. split; [exact Hn|]. split; [exact Hr|].
  split; [exact Hp|]. split; [exact Hd|exact Hc].
Defined.

(** * Further properties of the allocator *)

(** ** Tasks only shrink *)

Lemma later_of_refl t : later_of t t.
Proof. split; [apply frame_eq_refl|by left]. Qed.

Lemma later_of_trans t1 t2 t3 : later_of t1 t2 -> later_of t2 t3 -> later_of t1 t3.
Proof.
  intros [Hf1 H1] [Hf2 H2]. split; [by eapply frame_eq_trans|]. lia.
Qed.

Lemma later_of_unchanged t t' : later_of t t' -> remaining t <= 0 -> t' = t.
Proof.
  intros [(Hn&Ht&Hd&Hp) Hr] Hle. destruct t, t'. simpl in *. f_equal; (done || lia).
Qed.

Lemma later_store_refl st : later_store st st.
Proof.
  apply Forall2_same_length_lookup. split; [done|].
  intros i x y ? ?. simplify_eq. apply later_of_refl.
Qed.

Lemma later_store_trans st1 st2 st3 :
  later_store st1 st2 -> later_store st2 st3 -> later_store st1 st3.
Proof.
  intros H12 H23. eapply Forall2_trans; [|exact H12|exact H23].
  intros x y z. apply later_of_trans.
Qed.

Lemma later_store_frame st st' : later_store st st' -> same_frame st st'.
Proof. intros H. eapply Forall2_impl; [exact H|]. by intros x y [? _]. Qed.

Lemma task_step_later (s : DayState) (i : nat) :
  later_store (store s) (store (task_step s i)).
Proof.
  destruct (task_step_cases s i) as [->|(t&a&Hi&_&_&Ha&_&->)].
  - apply later_store_refl.
  - simpl. apply Forall2_same_length_lookup. split; [by rewrite length_insert|].
    intros j x y Hx Hy. destruct (decide (i = j)) as [->|Hne].
    + rewrite list_lookup_insert_eq in Hy by (by eapply lookup_lt_Some).
      simplify_eq. split; [by repeat split|]. simpl. lia.
    + rewrite list_lookup_insert_ne in Hy by done. simplify_eq. apply later_of_refl.
Qed.

Lemma inner_loop_later (order : list nat) (s : DayState) :
  later_store (store s) (store (fold_left task_step order s)).
Proof.
  apply (inner_loop_invariant (fun s' => later_store (store s) (store s'))).
  - apply later_store_refl.
  - intros s' i H. eapply later_store_trans; [exact H|apply task_step_later].
Qed.

Lemma days_loop_later (order : list nat) (caps : list Q) (st : list Task) :
  later_store st (snd (days_loop order caps st)).
Proof.
  revert st. induction caps as [|cap caps IH]; intros st; simpl.
  - apply later_store_refl.
  - specialize (IH (store (day_pass order cap st))).
    destruct (days_loop order caps (store (day_pass order cap st))) as [plan st'].
    simpl in *. eapply later_store_trans; [|exact IH].
    apply (inner_loop_later order (mkDay cap false st [])).
Qed.

(** ** Where the records come from, with their counts *)

Lemma from_input_later (st st' : list Task) (a : Assignment) :
  later_store st st' -> from_input st' a -> from_input st a.
Proof.
  intros Hl (i&t'&Hi&Hn&Hp&Ha&Ht).
  eapply Forall2_lookup_r in Hl as (t&Hi0&Hfe&Hr); [|exact Hi].
  exists i, t. rewrite (frame_eq_time_per _ _ Hfe).
  destruct Hfe as [Hname _]. rewrite Hname. repeat split; try done; lia.
Qed.

Lemma inner_loop_from_input (st0 : list Task) (order : list nat) (s : DayState) :
  later_store st0 (store s) -> Forall (from_input st0) (day_plan s) ->
  Forall (from_input st0) (day_plan (fold_left task_step order s)).
Proof.
  intros Hl Hall.
  apply (inner_loop_invariant
           (fun s' => later_store st0 (store s') /\ Forall (from_input st0) (day_plan s'))).
  - done.
  - intros s' i [Hl' Hall']. split.
    + eapply later_store_trans; [exact Hl'|apply task_step_later].
    + destruct (task_step_cases s' i) as [->|(t&a&Hi&_&Htp&Ha&_&->)]; [done|].
      simpl. apply Forall_app. split; [done|]. apply Forall_singleton.
      apply (from_input_later _ _ _ Hl'). exists i, t. simpl.
      repeat split; try done; lia.
Qed.

Lemma days_loop_from_input (st0 : list Task) (order : list nat) (caps : list Q)
    (st : list Task) :
  later_store st0 st ->
  Forall (Forall (from_input st0)) (fst (days_loop order caps st)).
Proof.
  revert st. induction caps as [|cap caps IH]; intros st Hl; simpl; [constructor|].
  assert (Hl1 : later_store st0 (store (day_pass order cap st))).
  { eapply later_store_trans; [exact Hl|].
    apply (inner_loop_later order (mkDay cap false st [])). }
  specialize (IH _ Hl1).
  destruct (days_loop order caps (store (day_pass order cap st))) as [plan st'].
  simpl in *. constructor; [|done].
  apply (inner_loop_from_input st0 order (mkDay cap false st [])); simpl; [done|constructor].
Qed.

(** X1. The plan has exactly one assignment list per capacity, whatever
    the tasks; with no capacities the plan is empty and the tasks are
    returned as they were passed. *)
Theorem plan_shape (caps : list Q) (tasks : list Task) :
  length (plan_of caps tasks) = length caps /\
  plan_of [] tasks = [] /\ tasks_after [] tasks = tasks.
Proof.
  split; [|by split]. rewrite plan_of_eq. apply days_loop_length.
Qed.

(** X2. Idle day: a day whose capacity is zero (or negative) gets an empty
    assignment list, and its pass leaves every task as it found it. *)
Theorem idle_day (caps : list Q) (tasks : list Task) (d : nat) (cap : Q) :
  caps !! d = Some cap -> (cap <= 0)%Q ->
  plan_of caps tasks !! d = Some [] /\
  tasks_at_day caps tasks (S d) = tasks_at_day caps tasks d.
Proof.
  intros Hd Hcap.
  assert (Hpass : forall order st, day_pass order cap st = mkDay cap false st []).
  { intros order st. unfold day_pass.
    apply (inner_loop_invariant (fun s => s = mkDay cap false st [])); [done|].
    intros s i ->. by apply task_step_no_time. }
  rewrite (plan_of_lookup caps tasks d cap Hd), (tasks_at_day_S caps tasks d cap Hd).
  by rewrite Hpass.
Qed.

Lemma idle_day_witness :
  let caps := [1%Q; 0%Q; 1%Q] in
  let tasks := [mkTask "A" 3 1%Q 1%Q 1] in
  caps !! 1%nat = Some 0%Q /\ (0 <= 0)%Q /\
  plan_of caps tasks !! 1%nat = Some [] /\
  tasks_at_day caps tasks 2 = tasks_at_day caps tasks 1.
Proof.
  assert (H0 : (0 <= 0)%Q) by (vm_compute; discriminate).
  split; [reflexivity|]. split; [exact H0|].
  exact (idle_day [1%Q; 0%Q; 1%Q] [mkTask "A" 3 1%Q 1%Q 1] 1 0%Q eq_refl H0).
Defined.

(** X3. Every record of the plan names a task of the input whose per-item
    cost is positive; its count is at least 1 and at most that task's
    [remaining] before the call; its time is the count times the task's
    per-item cost. *)
Theorem records_well_formed (caps : list Q) (tasks : list Task)
    (recs : list Assignment) (a : Assignment) :
  recs ∈ plan_of caps tasks -> a ∈ recs ->
  exists i t, tasks !! i = Some t /\ a_name a = name t /\ (0 < time_per t)%Q /\
    1 <= a_assigned a <= remaining t /\
    a_time a = (inject_Z (a_assigned a) * time_per t)%Q.
Proof.
  intros Hrecs Ha.
  pose proof (days_loop_from_input tasks (tasks_sorted tasks) caps tasks
                (later_store_refl _)) as Hall.
  rewrite <- plan_of_eq in Hall. rewrite Forall_forall in Hall.
  specialize (Hall recs Hrecs). rewrite Forall_forall in Hall. exact (Hall a Ha).
Qed.

Lemma records_well_formed_witness :
  let caps := [2%Q] in
  let tasks := [mkTask "A" 3 1%Q 1%Q 1] in
  let a := mkAssignment "A" 2 2%Q in
  [a] ∈ plan_of caps tasks /\ a ∈ [a] /\
  exists i t, tasks !! i = Some t /\ a_name a = name t /\ (0 < time_per t)%Q /\
    1 <= a_assigned a <= remaining t /\
    a_time a = (inject_Z (a_assigned a) * time_per t)%Q.
Proof.
  assert (H1 : [mkAssignment "A" 2 2%Q] ∈ plan_of [2%Q] [mkTask "A" 3 1%Q 1%Q 1]) by left.
  assert (H2 : mkAssignment "A" 2 2%Q ∈ [mkAssignment "A" 2 2%Q]) by left.
  split; [exact H1|]. split; [exact H2|].
  exact (records_well_formed [2%Q] [mkTask "A" 3 1%Q 1%Q 1] _ _ H1 H2).
Defined.

(** The records of each day follow the sorted order of the tasks. *)
Lemma plan_day_trace (caps : list Q) (tasks : list Task) (recs : list Assignment) :
  recs ∈ plan_of caps tasks ->
  exists l, l `sublist_of` tasks_sorted tasks /\ Forall2 (recorded_for tasks) recs l.
Proof.
  intros Hin. apply list_elem_of_lookup in Hin as [d Hrecs].
  assert (Hlt : (d < length caps)%nat).
  { rewrite <- (plan_of_length caps tasks). by eapply lookup_lt_Some. }
  destruct (lookup_lt_is_Some_2 caps d Hlt) as [cap Hcap].
  rewrite (plan_of_lookup caps tasks d cap Hcap) in Hrecs. simplify_eq.
  destruct (inner_loop_trace tasks (tasks_sorted tasks)
              (mkDay cap false (tasks_at_day caps tasks d) [])
              (tasks_at_day_frame caps tasks d)) as (l&new&Hsub&Hplan&Hrec).
  exists l. split; [done|]. unfold day_pass. by rewrite Hplan.
Qed.

Lemma recorded_names_NoDup (tasks : list Task) (recs : list Assignment) (l : list nat) :
  NoDup (name <$> tasks) -> NoDup l -> Forall2 (recorded_for tasks) recs l ->
  NoDup (a_name <$> recs).
Proof.
  intros Hnd Hl Hrec. induction Hrec as [|a i recs l (t&Hi&Hn) Hrec IH].
  - constructor.
  - apply NoDup_cons in Hl as [Hnotin Hl]. rewrite fmap_cons.
    apply NoDup_cons. split; [|by apply IH].
    intros Hin. apply list_elem_of_fmap in Hin as (a'&Heq&Hin').
    apply list_elem_of_lookup in Hin' as [p Hp].
    destruct (Forall2_lookup_l _ _ _ _ _ Hrec Hp) as (i'&Hi'&t'&Ht'&Hn').
    assert (i = i') by (eapply names_distinct; eauto; congruence).
    subst i'. apply Hnotin. by eapply list_elem_of_lookup_2.
Qed.

(** X4. With unique task names, a day's assignment list holds at most one
    record per task: the names in the list are pairwise distinct. *)
Theorem one_record_per_task_per_day (caps : list Q) (tasks : list Task)
    (recs : list Assignment) :
  NoDup (name <$> tasks) -> recs ∈ plan_of caps tasks ->
  NoDup (a_name <$> recs).
Proof.
  intros Hnd Hin. destruct (plan_day_trace caps tasks recs Hin) as (l&Hsub&Hrec).
  eapply recorded_names_NoDup; [exact Hnd| |exact Hrec].
  eapply sublist_NoDup; [apply tasks_sorted_NoDup|exact Hsub].
Qed.

Lemma one_record_per_task_per_day_witness :
  let caps := [3%Q] in
  let tasks := [mkTask "A" 1 1%Q 1%Q 2; mkTask "B" 1 1%Q 1%Q 1] in
  let recs := [mkAssignment "B" 1 1%Q; mkAssignment "A" 1 1%Q] in
  NoDup (name <$> tasks) /\ recs ∈ plan_of caps tasks /\ NoDup (a_name <$> recs).
Proof.
  assert (Hnd : NoDup (name <$> [mkTask "A" 1 1%Q 1%Q 2; mkTask "B" 1 1%Q 1%Q 1])).
  { apply (bool_decide_unpack _). vm_compute. exact I. }
  assert (Hin : [mkAssignment "B" 1 1%Q; mkAssignment "A" 1 1%Q]
                  ∈ plan_of [3%Q] [mkTask "A" 1 1%Q 1%Q 2; mkTask "B" 1 1%Q 1%Q 1]) by left.
  split; [exact Hnd|]. split; [exact Hin|].
  exact (one_record_per_task_per_day _ _ _ Hnd Hin).
Defined.

(** X5. A task with nothing left ([remaining <= 0]) is inert: the call
    returns it unchanged and, when task names are unique, no record of the
    plan bears its name. *)
Theorem inert_task (caps : list Q) (tasks : list Task) (j : nat) (t : Task) :
  tasks !! j = Some t -> remaining t <= 0 ->
  tasks_after caps tasks !! j = Some t /\
  (NoDup (name <$> tasks) ->
   forall recs a, recs ∈ plan_of caps tasks -> a ∈ recs -> a_name a <> name t).
Proof.
  intros Hj Hr. split.
  - rewrite tasks_after_eq.
    pose proof (days_loop_later (tasks_sorted tasks) caps tasks) as Hl.
    destruct (Forall2_lookup_l _ _ _ _ _ Hl Hj) as (t'&Hj'&Hlater).
    by rewrite (later_of_unchanged _ _ Hlater Hr) in Hj'.
  - intros Hnd recs a Hrecs Ha Hname.
    pose proof (days_loop_from_input tasks (tasks_sorted tasks) caps tasks
                  (later_store_refl _)) as Hall.
    rewrite <- plan_of_eq in Hall. rewrite Forall_forall in Hall.
    specialize (Hall recs Hrecs). rewrite Forall_forall in Hall.
    destruct (Hall a Ha) as (i&ti&Hi&Hn&_&Hcount&_).
    assert (i = j) by (eapply names_distinct; eauto; congruence).
    simplify_eq. lia.
Qed.

Lemma inert_task_witness :
  let caps := [2%Q; 1%Q] in
  let tasks := [mkTask "Z" 0 1%Q 1%Q 1; mkTask "A" 2 1%Q 1%Q 2] in
  0 <= 0 /\ NoDup (name <$> tasks) /\
  tasks_after caps tasks !! 0%nat = Some (mkTask "Z" 0 1%Q 1%Q 1) /\
  forall recs a, recs ∈ plan_of caps tasks -> a ∈ recs -> a_name a <> "Z".
Proof.
  assert (Hr : 0 <= 0) by discriminate.
  assert (Hnd : NoDup (name <$> [mkTask "Z" 0 1%Q 1%Q 1; mkTask "A" 2 1%Q 1%Q 2])).
  { apply (bool_decide_unpack _). vm_compute. exact I. }
  destruct (inert_task [2%Q; 1%Q] [mkTask "Z" 0 1%Q 1%Q 1; mkTask "A" 2 1%Q 1%Q 2] 0
              (mkTask "Z" 0 1%Q 1%Q 1) eq_refl Hr) as [Hsame Hrecs].
  split; [exact Hr|]. split; [exact Hnd|]. split; [exact Hsame|exact (Hrecs Hnd)].
Defined.

(** X6. Work that is left over means no day was wasted: if after the call
    some task still has [remaining > 0] and a positive per-item cost, then
    every day of positive capacity has a non-empty assignment list. *)
Theorem leftover_means_no_idle_day (caps : list Q) (tasks : list Task)
    (j : nat) (t : Task) (d : nat) (cap : Q) :
  tasks_after caps tasks !! j = Some t -> 0 < remaining t -> (0 < time_per t)%Q ->
  caps !! d = Some cap -> (0 < cap)%Q ->
  exists recs, plan_of caps tasks !! d = Some recs /\ recs <> [].
Proof.
  intros Hj Hr Htp Hd Hcap. eexists. split; [by apply plan_of_lookup|].
  rewrite (tasks_after_from_day caps tasks d) in Hj.
  pose proof (days_loop_later (tasks_sorted tasks) (drop d caps)
                (tasks_at_day caps tasks d)) as Hl.
  destruct (Forall2_lookup_r _ _ _ _ _ Hl Hj) as (td&Hjd&Hfe&Hrem).
  apply (day_pass_nonempty _ cap _ j td); try done.
  - apply lookup_lt_Some in Hjd.
    rewrite <- (same_frame_length _ _ (tasks_at_day_frame caps tasks d)) in Hjd.
    destruct (lookup_lt_is_Some_2 tasks j Hjd) as [t0 Ht0].
    by eapply tasks_sorted_complete.
  - split; [lia|]. by rewrite (frame_eq_time_per _ _ Hfe).
Qed.

Lemma leftover_means_no_idle_day_witness :
  let caps := [(1#2)%Q; 1%Q] in
  let tasks := [mkTask "A" 5 1%Q 1%Q 1] in
  tasks_after caps tasks !! 0%nat = Some (mkTask "A" 3 1%Q 1%Q 1) /\
  caps !! 0%nat = Some (1#2)%Q /\
  exists recs, plan_of caps tasks !! 0%nat = Some recs /\ recs <> [].
Proof.
  split; [reflexivity|]. split; [reflexivity|].
  exact (leftover_means_no_idle_day [(1#2)%Q; 1%Q] [mkTask "A" 5 1%Q 1%Q 1] 0
           (mkTask "A" 3 1%Q 1%Q 1) 0 (1#2)%Q eq_refl eq_refl eq_refl eq_refl eq_refl).
Defined.

(** X7. The order in which tasks are considered does not depend on how the
    sort is carried out: any arrangement of the task positions that is
    ascending in priority and keeps the input order among equal priorities
    is the one the allocator uses. *)
Theorem stable_sort_unique (tasks : list Task) (l : list nat) :
  l ≡ₚ seq 0 (length tasks) ->
  StronglySorted (precedes (key_of tasks)) l ->
  l = tasks_sorted tasks.
Proof.
  intros Hperm Hsorted.
  apply (StronglySorted_unique_strong (precedes (key_of tasks))).
  - intros x y _ _ Hxy Hyx. unfold precedes in *. lia.
  - exact Hsorted.
  - apply tasks_sorted_stable.
  - by rewrite Hperm, (tasks_sorted_perm tasks).
Qed.

Lemma stable_sort_unique_witness :
  let tasks := [mkTask "A" 1 1%Q 1%Q 2; mkTask "B" 1 1%Q 1%Q 1; mkTask "C" 1 1%Q 1%Q 2] in
  [1; 0; 2]%nat = tasks_sorted tasks.
Proof.
  apply stable_sort_unique.
  - simpl. apply perm_swap.
  - unfold precedes, key_of. simpl.
    repeat (constructor; simpl); lia.
Defined.

(** * Further properties of the replanner *)

Lemma rows_partition (rows : list PlanRow) (nm : string) (today : Z) :
  sumZ (r_assigned <$> rows_of nm rows) =
    prev_of rows nm today + today_assigned_of rows nm today + future_of rows nm today.
Proof.
  unfold prev_of, today_assigned_of, future_of, sum_assigned, rows_of.
  induction rows as [|r rows IH]; [done|].
  cbn [List.filter].
  destruct (String.eqb (r_name r) nm); cbn [andb]; [|exact IH].
  rewrite fmap_cons. cbn [sumZ]. rewrite IH.
  destruct (Z.ltb_spec (r_day r) today), (Z.eqb_spec (r_day r) today),
    (Z.ltb_spec today (r_day r)); try lia;
    rewrite ?fmap_cons; cbn [sumZ]; lia.
Qed.

Lemma cutoff_partition_aux (rows : list PlanRow) (today : Z) (k : nat)
    (nm : string) (info : TaskInfo) :
  aggregate_tasks_from_plan rows !! k = Some (nm, info) ->
  total_assigned info =
    prev_of rows nm today + today_assigned_of rows nm today + future_of rows nm today.
Proof.
  intros Hk. destruct (aggregate_entry rows k nm info Hk) as (_&r0&rest&Hrows&->).
  cbn [set_estimate total_assigned]. rewrite <- Hrows. apply rows_partition.
Qed.

(** X12. Partition by the cutoff day: for every task of the aggregation
    table and every choice of today, [total_assigned] is the sum of the
    items assigned before today, on today, and after today. *)
Theorem cutoff_partition (rows : list PlanRow) (today : Z) (k : nat)
    (nm : string) (info : TaskInfo) :
  aggregate_tasks_from_plan rows !! k = Some (nm, info) ->
  total_assigned info =
    prev_of rows nm today + today_assigned_of rows nm today + future_of rows nm today.
Proof.
  apply cutoff_partition_aux.
Qed.

Lemma cutoff_partition_witness :
  let rows := [mkRow 1 "X" 2 2%Q; mkRow 2 "X" 3 3%Q; mkRow 3 "X" 4 4%Q] in
  exists info, aggregate_tasks_from_plan rows !! 0%nat = Some ("X", info) /\
    total_assigned info = prev_of rows "X" 2 + today_assigned_of rows "X" 2
                          + future_of rows "X" 2.
Proof.
  eexists. split; [reflexivity|].
  exact (cutoff_partition [mkRow 1 "X" 2 2%Q; mkRow 2 "X" 3 3%Q; mkRow 3 "X" 4 4%Q]
           2 0 "X" _ eq_refl).
Defined.

(** ** Accepting the suggested counts *)

Lemma prev_of_nonneg (rows : list PlanRow) (cond : PlanRow -> bool) :
  Forall (fun r => 0 <= r_assigned r) rows -> 0 <= sum_assigned cond rows.
Proof.
  unfold sum_assigned. induction 1 as [|r rows Hr _ IH]; [done|].
  cbn [List.filter]. destruct (cond r); [|exact IH].
  rewrite fmap_cons. cbn [sumZ]. lia.
Qed.

Lemma accept_done_blank (total prev today_assigned : Z) :
  0 <= today_assigned <= total - prev ->
  accept_done total prev today_assigned Blank = (today_assigned, []).
Proof.
  intros H. unfold accept_done.
  replace (Z.min (total - prev) today_assigned) with today_assigned by lia.
  assert (E1 : (today_assigned <? 0) = false) by (apply Z.ltb_ge; lia).
  assert (E2 : (Z.max 0 (total - prev) <? today_assigned) = false)
    by (apply Z.ltb_ge; lia).
  cbv zeta. rewrite !E1. cbv iota. by rewrite E2.
Qed.

(** X13. Accepting every suggested count: when the history has no negative
    assigned count and the user answers every completion prompt with an
    empty line, nothing is printed about the counts, and each derived task
    has exactly the items that were scheduled after today as its
    [remaining]. *)
Theorem defaults_replan_the_future (rows : list PlanRow) (day_capacities : list Q)
    (today_reply : option Z) (typed : list Q) :
  Forall (fun r => 0 <= r_assigned r) rows ->
  let r := run rows day_capacities today_reply (fun _ => Blank) typed in
  let today := read_today today_reply in
  printed r = [] /\
  forall k nm info, aggregate_tasks_from_plan rows !! k = Some (nm, info) ->
    exists t, remaining_tasks r !! k = Some t /\ name t = nm /\
      remaining t = future_of rows nm today.
Proof.
  intros Hnn r today. subst r.
  assert (Hacc : forall k nm info,
    aggregate_tasks_from_plan rows !! k = Some (nm, info) ->
    accept_done (total_assigned info) (prev_of rows nm today)
      (today_assigned_of rows nm today) Blank = (today_assigned_of rows nm today, [])).
  { intros k nm info Hk. apply accept_done_blank.
    rewrite (cutoff_partition_aux rows today k nm info Hk).
    pose proof (prev_of_nonneg rows
      (fun r => String.eqb (r_name r) nm && (r_day r =? today)) Hnn) as H1.
    pose proof (prev_of_nonneg rows
      (fun r => String.eqb (r_name r) nm && (today <? r_day r)) Hnn) as H2.
    unfold today_assigned_of, future_of. lia. }
  split.
  - change (printed (run rows day_capacities today_reply (fun _ => Blank) typed))
      with (snd (completion_loop rows today (fun _ => Blank)
                   (aggregate_tasks_from_plan rows))).
    unfold completion_loop. cbn [snd].
    apply concat_nil_Forall. apply Forall_fmap. apply Forall_lookup.
    intros k [entry log] Hk. rewrite list_lookup_imap in Hk.
    destruct (aggregate_tasks_from_plan rows !! k) as [[nm info]|] eqn:Hinfo; [|done].
    simpl in Hk. unfold complete_task in Hk. rewrite (Hacc k nm info Hinfo) in Hk.
    by simplify_eq.
  - intros k nm info Hk. rewrite run_remaining_tasks. fold today.
    set (completed := fst (completion_loop rows today (fun _ => Blank)
                             (aggregate_tasks_from_plan rows))).
    assert (Hdone : dict_get nm completed =
              Some (mkCompleted (today_assigned_of rows nm today) (prev_of rows nm today))).
    { eapply dict_get_lookup.
      - unfold completed. rewrite completion_loop_keys. apply aggregate_NoDup.
      - unfold completed.
        rewrite (completion_loop_lookup rows today _ _ k nm info Hk).
        by rewrite (Hacc k nm info Hk). }
    assert (Hlook : (derive_task rows today completed <$> aggregate_tasks_from_plan rows)
                      !! k = Some (derive_task rows today completed (nm, info)))
      by (by rewrite list_lookup_fmap, Hk).
    rewrite (derive_task_fields rows today completed nm info _ Hdone) in Hlook.
    eexists. split; [exact Hlook|].
    cbn [name remaining done_today]. split; [done|].
    rewrite (cutoff_partition_aux rows today k nm info Hk).
    pose proof (prev_of_nonneg rows
      (fun r => String.eqb (r_name r) nm && (today <? r_day r)) Hnn) as H2.
    unfold future_of in *. lia.
Qed.

Lemma defaults_replan_the_future_witness :
  let rows := [mkRow 1 "X" 2 2%Q; mkRow 2 "X" 3 3%Q; mkRow 3 "X" 4 4%Q] in
  let r := run rows [1%Q; 1%Q; 1%Q] (Some 2) (fun _ => Blank) [] in
  Forall (fun r => 0 <= r_assigned r) rows /\ printed r = [] /\
  exists t, remaining_tasks r !! 0%nat = Some t /\ name t = "X" /\
    remaining t = future_of rows "X" 2.
Proof.
  assert (Hnn : Forall (fun r => 0 <= r_assigned r)
                  [mkRow 1 "X" 2 2%Q; mkRow 2 "X" 3 3%Q; mkRow 3 "X" 4 4%Q]).
  { repeat constructor; simpl; discriminate. }
  destruct (defaults_replan_the_future
              [mkRow 1 "X" 2 2%Q; mkRow 2 "X" 3 3%Q; mkRow 3 "X" 4 4%Q]
              [1%Q; 1%Q; 1%Q] (Some 2) [] Hnn) as [Hprinted Htasks].
  split; [exact Hnn|]. split; [exact Hprinted|].
  exact (Htasks 0%nat "X" _ eq_refl).
Defined.

(** ** The order of the aggregation table *)

Lemma first_loop_keys_elem (rows : list PlanRow) (k : string) :
  k ∈ (fst <$> fold_left aggregate_row rows []) <->
  k <> idle_sentinel /\ k ∈ (r_name <$> rows).
Proof.
  pose proof (dict_get_None k (fold_left aggregate_row rows [])) as Hnone.
  rewrite first_loop_get in Hnone. split.
  - intros Hin. destruct (collected k rows) as [c|] eqn:Hc.
    + destruct (collected_inv k rows c Hc) as (Hk&r0&rest&Hrows&_).
      split; [done|]. apply list_elem_of_fmap. exists r0. 
      assert (Hr0 : r0 ∈ rows_of k rows) by (rewrite Hrows; left).
      apply rows_of_elem in Hr0 as [? ?]. by split.
    + exfalso. by apply (proj1 Hnone).
  - intros [Hk Hin]. destruct (collected_Some k rows Hk Hin) as (r0&rest&_&Hc).
    rewrite Hc in Hnone. destruct (decide (k ∈ (fst <$> fold_left aggregate_row rows [])))
      as [|Hnotin]; [done|].
    apply Hnone in Hnotin. discriminate.
Qed.

Lemma first_loop_keys_snoc (rows : list PlanRow) (r : PlanRow) :
  fst <$> fold_left aggregate_row (rows ++ [r]) [] =
    (fst <$> fold_left aggregate_row rows [])
      ++ (if decide (r_name r = idle_sentinel
                     \/ r_name r ∈ (fst <$> fold_left aggregate_row rows []))
          then [] else [r_name r]).
Proof.
  rewrite fold_left_app. cbn [fold_left]. unfold aggregate_row at 1.
  destruct (String.eqb_spec (r_name r) idle_sentinel) as [Heq|Hne].
  { rewrite decide_True by (by left). by rewrite app_nil_r. }
  rewrite dict_set_keys.
  destruct (dict_get (r_name r) (fold_left aggregate_row rows [])) eqn:Hget.
  - rewrite decide_True; [by rewrite app_nil_r|]. right.
    destruct (decide (r_name r ∈ (fst <$> fold_left aggregate_row rows [])))
      as [|Hnotin]; [done|].
    apply dict_get_None in Hnotin. congruence.
  - rewrite decide_False; [done|]. intros [?|Hin]; [done|].
    apply dict_get_None in Hget. done.
Qed.

Lemma first_loop_keys_order (rows : list PlanRow) (p q : nat) (k1 k2 : string) :
  (fst <$> fold_left aggregate_row rows []) !! p = Some k1 ->
  (fst <$> fold_left aggregate_row rows []) !! q = Some k2 ->
  (p < q)%nat ->
  exists i, (r_name <$> rows) !! i = Some k1 /\
    forall j, (r_name <$> rows) !! j = Some k2 -> (i < j)%nat.
Proof.
  revert p q k1 k2. induction rows as [|r rows IH] using rev_ind;
    intros p q k1 k2 Hp Hq Hlt; [done|].
  rewrite first_loop_keys_snoc in Hp, Hq. rewrite fmap_app. cbn [fmap list_fmap].
  set (keys := fst <$> fold_left aggregate_row rows []) in *.
  assert (Hold : forall i, (r_name <$> rows) !! i = Some k1 ->
            (forall j, (r_name <$> rows) !! j = Some k2 -> (i < j)%nat) ->
            exists i', ((r_name <$> rows) ++ [r_name r]) !! i' = Some k1 /\
              forall j, ((r_name <$> rows) ++ [r_name r]) !! j = Some k2 -> (i' < j)%nat).
  { intros i Hi Hall. exists i. split; [by apply lookup_app_l_Some|].
    intros j Hj. pose proof (lookup_lt_Some _ _ _ Hi) as Hilt.
    destruct (decide (j < length (r_name <$> rows))%nat) as [Hjlt|Hjge].
    - rewrite lookup_app_l in Hj by done. by apply Hall.
    - lia. }
  destruct (decide (r_name r = idle_sentinel \/ r_name r ∈ keys)) as [Hknown|Hnew].
  - rewrite app_nil_r in Hp, Hq. destruct (IH p q k1 k2 Hp Hq Hlt) as (i&Hi&Hall).
    by apply (Hold i).
  - destruct (decide (q < length keys)%nat) as [Hq_old|Hq_new].
    + rewrite lookup_app_l in Hp by lia. rewrite lookup_app_l in Hq by done.
      destruct (IH p q k1 k2 Hp Hq Hlt) as (i&Hi&Hall). by apply (Hold i).
    + pose proof (lookup_lt_Some _ _ _ Hq) as Hqlt.
      rewrite length_app in Hqlt. simpl in Hqlt.
      assert (q = length keys) by lia. subst q.
      rewrite list_lookup_middle in Hq by done. simplify_eq.
      rewrite lookup_app_l in Hp by done.
      assert (Hk1 : k1 ∈ keys) by (by eapply list_elem_of_lookup_2).
      apply first_loop_keys_elem in Hk1 as [_ Hk1].
      apply list_elem_of_lookup in Hk1 as [i Hi].
      exists i. split; [by apply lookup_app_l_Some|].
      intros j Hj. pose proof (lookup_lt_Some _ _ _ Hi) as Hilt.
      destruct (decide (j < length (r_name <$> rows))%nat) as [Hjlt|Hjge]; [|lia].
      rewrite lookup_app_l in Hj by done. exfalso. apply Hnew. right.
      apply first_loop_keys_elem. split; [tauto|]. by eapply list_elem_of_lookup_2.
Qed.

(** X14. The aggregation table lists each task once, in the order of first
    appearance in the history: its keys are pairwise distinct, they are
    exactly the names of the rows other than the idle sentinel, and a key
    that comes before another has a row before every row of the other. *)
Theorem table_order (rows : list PlanRow) :
  let keys := fst <$> aggregate_tasks_from_plan rows in
  let names := r_name <$> rows in
  NoDup keys /\
  (forall k, k ∈ keys <-> k <> idle_sentinel /\ k ∈ names) /\
  (forall p q k1 k2, keys !! p = Some k1 -> keys !! q = Some k2 -> (p < q)%nat ->
     exists i, names !! i = Some k1 /\ forall j, names !! j = Some k2 -> (i < j)%nat).
Proof.
  intros keys names. subst keys names. unfold aggregate_tasks_from_plan.
  rewrite dict_keys_fmap. split; [apply first_loop_NoDup|].
  split; [apply first_loop_keys_elem|apply first_loop_keys_order].
Qed.

Lemma table_order_witness :
  let rows := [mkRow 1 "B" 1 1%Q; mkRow 1 "A" 1 1%Q; mkRow 2 "B" 1 1%Q] in
  (fst <$> aggregate_tasks_from_plan rows) = ["B"; "A"] /\
  exists i, (r_name <$> rows) !! i = Some "B" /\
    forall j, (r_name <$> rows) !! j = Some "A" -> (i < j)%nat.
Proof.
  split; [reflexivity|].
  destruct (table_order [mkRow 1 "B" 1 1%Q; mkRow 1 "A" 1 1%Q; mkRow 2 "B" 1 1%Q])
    as (_&_&Horder).
  assert (Hlt : (0 < 1)%nat) by (apply Nat.lt_0_succ).
  exact (Horder 0%nat 1%nat "B" "A" eq_refl eq_refl Hlt).
Defined.

(** * Properties of saving and loading *)

Section Loading.
Context `{PyText}.

Lemma read_plan_rows_raises (b : list (list string)) :
  read_plan_rows b = Raised_IndexError <->
  Exists (fun r => exists c day, r = [c] /\ py_int c = Some day) b.
Proof.
  induction b as [|r b IH]; simpl.
  - split; [done|]. intros Hex. inversion Hex.
  - rewrite Exists_cons. destruct r as [|c [|name r]]; simpl.
    + rewrite IH. split; [by right|]. intros [(c&day&?&_)|?]; done.
    + destruct (py_int c) as [day|] eqn:Hc; simpl.
      * split; [|done]. intros _. left. by exists c, day.
      * rewrite IH. split; [by right|].
        intros [(c'&day&?&?)|?]; [|done]. simplify_eq.
    + destruct (py_int c) as [day|] eqn:Hc; simpl.
      * destruct (read_plan_rows b) as [prs|] eqn:Hb.
        -- split; [done|]. intros [(c'&day'&?&_)|Hex]; [done|].
           apply IH in Hex. done.
        -- split; [|done]. intros _. right. by apply IH.
      * rewrite IH. split; [by right|]. intros [(c'&day&?&_)|?]; done.
Qed.

Lemma load_raises_iff (rows : list (list string)) :
  load_plan_csv rows = Raised_IndexError <->
  read_plan_rows (plan_block rows) = Raised_IndexError.
Proof.
  unfold load_plan_csv, plan_block.
  destruct (block rows) as [meta_rows rest]. cbn [snd].
  destruct (has_header "Day Capacities" (skip_blank rest)).
  - destruct (block (drop 2 (skip_blank rest))) as [b rest']. cbn [snd].
    destruct (has_header "Plan" (skip_blank rest')); [|done].
    destruct (block (drop 2 (skip_blank rest'))) as [b' ?]. cbn [fst].
    by destruct (read_plan_rows b').
  - destruct (has_header "Plan" (skip_blank (skip_blank rest))); [|done].
    destruct (block (drop 2 (skip_blank (skip_blank rest)))) as [b' ?]. cbn [fst].
    by destruct (read_plan_rows b').
Qed.

(** X15. [load_plan_csv] has one way to fail: it raises [IndexError]
    exactly when the Plan section holds a row made of a single cell that
    reads as an integer; every other malformed row is skipped or read with
    zeros, and the call returns. *)
Theorem load_failure (rows : list (list string)) :
  load_plan_csv rows = Raised_IndexError <->
  Exists (fun r => exists c day, r = [c] /\ py_int c = Some day) (plan_block rows).
Proof. rewrite load_raises_iff. apply read_plan_rows_raises. Qed.

End Loading.

Section RoundTrip.
Context `{PyText}.
Variable round2 : Q -> Q.
Hypothesis laws : PyLaws round2.

Lemma block_app_blank (b rest : list (list string)) :
  Forall (fun r => is_blank r = false) b ->
  block (b ++ [] :: rest) = (b, [] :: rest).
Proof.
  induction 1 as [|r b Hr _ IH]; [done|].
  cbn [app block]. by rewrite Hr, IH.
Qed.

Lemma capacity_rows_not_blank (i : Z) (caps : list Q) :
  Forall (fun r => is_blank r = false) (capacity_rows i caps).
Proof. revert i. induction caps as [|h caps IH]; intros i; simpl; by constructor. Qed.

Lemma day_rows_not_blank (i : Z) (day_tasks : list Assignment) :
  Forall (fun r => is_blank r = false) (day_rows i day_tasks).
Proof.
  destruct day_tasks as [|a l]; [by repeat constructor|].
  unfold day_rows. apply Forall_fmap. apply Forall_forall. by intros it _.
Qed.

Lemma plan_section_rows_not_blank (i : Z) (plan : list (list Assignment)) :
  Forall (fun r => is_blank r = false) (plan_section_rows i plan).
Proof.
  revert i. induction plan as [|day_tasks plan IH]; intros i; simpl; [constructor|].
  apply Forall_app. split; [apply day_rows_not_blank|apply IH].
Qed.

Lemma read_capacities_rows (i : Z) (caps : list Q) :
  read_capacities (capacity_rows i caps) = round2 <$> caps.
Proof.
  revert i. induction caps as [|h caps IH]; intros i; [done|].
  unfold read_capacities in *. cbn [capacity_rows omap list_omap lookup list_lookup mbind option_bind].
  rewrite (float_fmt2 round2 laws). rewrite fmap_cons. f_equal. apply IH.
Qed.

Lemma read_plan_rows_app (b1 b2 : list (list string)) (p1 : list PlanRow) :
  read_plan_rows b1 = Returned p1 ->
  read_plan_rows (b1 ++ b2) =
    match read_plan_rows b2 with
    | Returned p2 => Returned (p1 ++ p2)
    | Raised_IndexError => Raised_IndexError
    end.
Proof.
  revert p1. induction b1 as [|r b1 IH]; intros p1 H1.
  - simpl in H1. simplify_eq. simpl. by destruct (read_plan_rows b2).
  - cbn [app read_plan_rows] in *.
    destruct (r !! 0%nat ≫= py_int) as [day|]; [|by apply IH].
    destruct (r !! 1%nat) as [name|]; [|done].
    destruct (read_plan_rows b1) as [prs|]; [|done].
    simplify_eq. rewrite (IH prs eq_refl). by destruct (read_plan_rows b2).
Qed.

Lemma read_record_row (i : Z) (it : Assignment) (b : list (list string)) :
  read_plan_rows ([py_str i; a_name it; py_str (a_assigned it); py_fmt2 (a_time it)] :: b) =
    match read_plan_rows b with
    | Returned prs =>
      Returned (mkRow i (a_name it) (a_assigned it) (round2 (a_time it)) :: prs)
    | Raised_IndexError => Raised_IndexError
    end.
Proof.
  cbn [read_plan_rows lookup list_lookup mbind option_bind].
  rewrite (int_str round2 laws).
  unfold read_assigned, read_time. cbn [lookup list_lookup].
  destruct (String.eqb_spec (py_str (a_assigned it)) "") as [He|_].
  { by apply (str_nonempty round2 laws) in He. }
  destruct (String.eqb_spec (py_fmt2 (a_time it)) "") as [He|_].
  { by apply (fmt2_nonempty round2 laws) in He. }
  by rewrite (int_str round2 laws), (float_fmt2 round2 laws).
Qed.

Lemma read_day_rows (i : Z) (day_tasks : list Assignment) :
  read_plan_rows (day_rows i day_tasks) = Returned (day_plan_rows round2 i day_tasks).
Proof.
  destruct day_tasks as [|a l].
  - cbn [day_rows read_plan_rows lookup list_lookup mbind option_bind].
    by rewrite (int_str round2 laws).
  - unfold day_rows, day_plan_rows. generalize (a :: l). clear a l.
    intros l. induction l as [|it l IH]; [done|].
    rewrite !fmap_cons, read_record_row. by rewrite IH.
Qed.

Lemma read_plan_section (i : Z) (plan : list (list Assignment)) :
  read_plan_rows (plan_section_rows i plan) = Returned (plan_rows_of round2 i plan).
Proof.
  revert i. induction plan as [|day_tasks plan IH]; intros i; [done|].
  cbn [plan_section_rows plan_rows_of].
  rewrite (read_plan_rows_app _ _ _ (read_day_rows i day_tasks)). by rewrite IH.
Qed.

(** A file with the three parts in place reads back part by part. *)
Lemma load_layout (meta_rows cap_rows plan_rows : list (list string))
    (h1 h2 : list string) :
  Forall (fun r => is_blank r = false) meta_rows ->
  Forall (fun r => is_blank r = false) cap_rows ->
  Forall (fun r => is_blank r = false) plan_rows ->
  load_plan_csv
    (meta_rows ++ [] :: ["Day Capacities"] :: h1 :: cap_rows
       ++ [] :: ["Plan"] :: h2 :: plan_rows ++ [[]]) =
    match read_plan_rows plan_rows with
    | Returned prs =>
      Returned (mkLoaded (read_meta meta_rows) (read_capacities cap_rows) prs)
    | Raised_IndexError => Raised_IndexError
    end.
Proof.
  intros Hmeta Hcap Hplan. unfold load_plan_csv.
  rewrite (block_app_blank meta_rows _ Hmeta).
  cbn [skip_blank is_blank has_header].
  rewrite (strip_capacities round2 laws), String.eqb_refl.
  cbn [drop]. rewrite drop_0, (block_app_blank cap_rows _ Hcap).
  cbn [skip_blank is_blank has_header].
  rewrite (strip_plan round2 laws), String.eqb_refl.
  cbn [drop]. by rewrite drop_0, (block_app_blank plan_rows _ Hplan).
Qed.

End RoundTrip.

Lemma load_export `{PyText} (round2 : Q -> Q) (now : string)
    (start_date test_date : option string) (subject : string)
    (day_capacities : list Q) (total_needed : Q) (plan : list (list Assignment)) :
  PyLaws round2 ->
  load_plan_csv
    (_export_plan_csv now start_date test_date subject day_capacities total_needed plan) =
  Returned
    (mkLoaded
       ([("subject", subject); ("generated_at", now);
         ("total_available", py_fmt2 (sumQ day_capacities));
         ("total_needed", py_fmt2 total_needed)]
        ++ match start_date with Some d => [("start_date", d)] | None => [] end
        ++ match test_date with Some d => [("test_date", d)] | None => [] end)
       (round2 <$> day_capacities)
       (plan_rows_of round2 1 plan)).
Proof.
  intros laws.
  set (meta_rows :=
         [["subject"; subject]; ["generated_at"; now];
          ["total_available"; py_fmt2 (sumQ day_capacities)];
          ["total_needed"; py_fmt2 total_needed]]
         ++ optional_row "start_date" start_date
         ++ optional_row "test_date" test_date).
  assert (Hshape :
    _export_plan_csv now start_date test_date subject day_capacities total_needed plan =
    meta_rows ++ [] :: ["Day Capacities"] :: ["Day"; "AvailableHours"]
      :: capacity_rows 1 day_capacities
      ++ [] :: ["Plan"] :: ["Day"; "Task"; "Assigned"; "Time(hours)"]
      :: plan_section_rows 1 plan ++ [[]]).
  { unfold meta_rows, _export_plan_csv. by destruct start_date, test_date. }
  rewrite Hshape, (load_layout round2 laws).
  - rewrite (read_plan_section round2 laws), (read_capacities_rows round2 laws).
    f_equal. f_equal. unfold meta_rows. by destruct start_date, test_date.
  - unfold meta_rows. destruct start_date, test_date; by repeat constructor.
  - apply capacity_rows_not_blank.
  - apply plan_section_rows_not_blank.
Qed.

(** X16. A saved plan reads back: under the stated assumptions on the
    Python library calls, [load_plan_csv] on the rows [_export_plan_csv]
    writes returns the metadata rows as written, each capacity as it reads
    after two-decimal formatting, and the plan as rows: one per record,
    with its 1-based day number, name, count and two-decimal time, and one
    idle-sentinel row (count 0, time 0.0) for each day without records. *)
Theorem save_load_round_trip `{PyText} (round2 : Q -> Q) (now : string)
    (start_date test_date : option string) (subject : string)
    (day_capacities : list Q) (total_needed : Q) (plan : list (list Assignment)) :
  PyLaws round2 ->
  load_plan_csv
    (_export_plan_csv now start_date test_date subject day_capacities total_needed plan) =
  Returned
    (mkLoaded
       ([("subject", subject); ("generated_at", now);
         ("total_available", py_fmt2 (sumQ day_capacities));
         ("total_needed", py_fmt2 total_needed)]
        ++ match start_date with Some d => [("start_date", d)] | None => [] end
        ++ match test_date with Some d => [("test_date", d)] | None => [] end)
       (round2 <$> day_capacities)
       (plan_rows_of round2 1 plan)).
Proof. apply load_export. Qed.

Lemma ones_length (n : nat) : String.length (ones n) = n.
Proof. induction n as [|n IH]; simpl; [done|]. by rewrite IH. Qed.

Lemma unary_laws : @PyLaws unary_text (fun _ => 0%Q).
Proof.
  split; try done.
  intros z. simpl. destruct (Z.ltb_spec z 0); simpl; rewrite ones_length; f_equal; lia.
Qed.

Lemma save_load_round_trip_witness :
  @load_plan_csv unary_text
    (@_export_plan_csv unary_text "now" (Some "2025-12-01") None "S" [1%Q; 0%Q] 2%Q
       [[mkAssignment "A" 2 1%Q]; []]) =
  Returned
    (mkLoaded
       [("subject", "S"); ("generated_at", "now"); ("total_available", "0.00");
        ("total_needed", "0.00"); ("start_date", "2025-12-01")]
       [0%Q; 0%Q]
       [mkRow 1 "A" 2 0%Q; mkRow 2 "(休憩/学習無し)" 0 0%Q]).
Proof.
  exact (@save_load_round_trip unary_text (fun _ => 0%Q) "now" (Some "2025-12-01") None
           "S" [1%Q; 0%Q] 2%Q [[mkAssignment "A" 2 1%Q]; []] unary_laws).
Defined.

(** ** From a saved plan back to the replanner *)

Lemma rows_of_day_plan_rows (round2 : Q -> Q) (nm : string) (i : Z)
    (day_tasks : list Assignment) :
  nm <> idle_sentinel ->
  sumZ (r_assigned <$> rows_of nm (day_plan_rows round2 i day_tasks)) =
    assigned_to nm day_tasks.
Proof.
  intros Hnm. destruct day_tasks as [|a l].
  - unfold rows_of. cbn [day_plan_rows List.filter r_name].
    destruct (String.eqb_spec idle_sentinel nm); [congruence|done].
  - unfold day_plan_rows. generalize (a :: l). clear a l. intros l.
    induction l as [|it l IH]; [done|].
    rewrite fmap_cons. unfold rows_of in *. cbn [List.filter r_name assigned_to].
    destruct (String.eqb (a_name it) nm).
    + rewrite fmap_cons. cbn [sumZ r_assigned]. by rewrite IH.
    + rewrite IH. lia.
Qed.

Lemma rows_of_plan_rows (round2 : Q -> Q) (nm : string) (i : Z)
    (plan : list (list Assignment)) :
  nm <> idle_sentinel ->
  sumZ (r_assigned <$> rows_of nm (plan_rows_of round2 i plan)) =
    total_assigned_to nm plan.
Proof.
  intros Hnm. unfold total_assigned_to. revert i.
  induction plan as [|day_tasks plan IH]; intros i; [done|].
  cbn [plan_rows_of concat]. unfold rows_of in *.
  rewrite List.filter_app, fmap_app, sumZ_app, assigned_to_app, IH.
  f_equal. by apply rows_of_day_plan_rows.
Qed.

(** X17. Saving the allocator's plan and loading it back gives the
    replanner the right totals: for a task set with unique names, a task
    whose name is not the idle sentinel either has an entry in the table
    aggregated from the loaded rows, whose [total_assigned] is the number of
    items the call took off its [remaining], or has no entry and was left
    untouched by the call. *)
Theorem reload_recovers_assigned `{PyText} (round2 : Q -> Q) (now : string)
    (start_date test_date : option string) (subject : string) (total_needed : Q)
    (caps : list Q) (tasks : list Task) (j : nat) (t : Task) :
  PyLaws round2 -> NoDup (name <$> tasks) -> tasks !! j = Some t ->
  name t <> idle_sentinel ->
  exists l t',
    load_plan_csv
      (_export_plan_csv now start_date test_date subject caps total_needed
         (plan_of caps tasks)) = Returned l /\
    tasks_after caps tasks !! j = Some t' /\
    match dict_get (name t) (aggregate_tasks_from_plan (l_plan_rows l)) with
    | Some info => total_assigned info = remaining t - remaining t'
    | None => remaining t' = remaining t
    end.
Proof.
  intros laws Hnd Hj Hnm.
  destruct (days_loop_conserves (tasks_sorted tasks) caps tasks j t Hnd Hj)
    as (t'&Hj'&_&Heq&_).
  rewrite <- plan_of_eq in Heq. rewrite <- tasks_after_eq in Hj'.
  eexists. exists t'. split; [by apply load_export|]. split; [exact Hj'|].
  cbn [l_plan_rows]. rewrite aggregate_get.
  pose proof (rows_of_plan_rows round2 (name t) 1 (plan_of caps tasks) Hnm) as Hsum.
  unfold collected. destruct (String.eqb_spec (name t) idle_sentinel); [done|].
  destruct (rows_of (name t) (plan_rows_of round2 1 (plan_of caps tasks)))
    as [|r0 rest]; cbn [fmap option_fmap option_map set_estimate total_assigned].
  - change (0 = total_assigned_to (name t) (plan_of caps tasks)) in Hsum. lia.
  - change (sumZ (r_assigned <$> r0 :: rest) = remaining t - remaining t'). lia.
Qed.

Lemma reload_recovers_assigned_witness :
  let tasks := [mkTask "A" 3 1%Q 1%Q 1] in
  NoDup (name <$> tasks) /\ "A" <> idle_sentinel /\
  exists l t',
    @load_plan_csv unary_text
      (@_export_plan_csv unary_text "now" None None "S" [2%Q] 3%Q (plan_of [2%Q] tasks))
      = Returned l /\
    tasks_after [2%Q] tasks !! 0%nat = Some t' /\
    match dict_get "A" (aggregate_tasks_from_plan (l_plan_rows l)) with
    | Some info => total_assigned info = 3 - remaining t'
    | None => remaining t' = 3
    end.
Proof.
  assert (Hnd : NoDup (name <$> [mkTask "A" 3 1%Q 1%Q 1])).
  { apply (bool_decide_unpack _). vm_compute. exact I. }
  assert (Hne : "A" <> idle_sentinel) by discriminate.
  split; [exact Hnd|]. split; [exact Hne|].
  exact (@reload_recovers_assigned unary_text (fun _ => 0%Q) "now" None None "S" 3%Q
           [2%Q] [mkTask "A" 3 1%Q 1%Q 1] 0 (mkTask "A" 3 1%Q 1%Q 1)
           unary_laws Hnd eq_refl Hne).
Defined.
